(** * peer-review-insights: the metrics engine and its GitHub data source

    A shallow embedding of [gitclient/github.go] and of the [metrics]
    package, followed by the properties of the window filter, the period
    merger, the change-attribution matcher and the aggregator. *)

From Stdlib Require Import ZArith Lia Bool List String Ascii.
From Stdlib Require Import Sorting.Permutation Sorting.Sorted.
From Stdlib Require Import Floats.PrimFloat Numbers.Cyclic.Int63.Uint63.
From stdpp Require Import base option list sorting gmap strings pretty.

Local Open Scope Z_scope.

(** ** Go's [time] package, as far as the program uses it *)

Module GoTime.

(** A [time.Time] is an instant; only [Before], [After] and [Sub] are
    used on it, and they depend on the instant alone.  It is counted here
    in nanoseconds on an unbounded axis. *)
Abbreviation Time := Z (only parsing).

(** A [time.Duration] is an [int64] count of nanoseconds. *)
Abbreviation Duration := Z (only parsing).

Definition minInt64 : Z := - 2 ^ 63.
Definition maxInt64 : Z := 2 ^ 63 - 1.

(** Two's complement wrap-around of [int64] (and of [int] on 64-bit
    targets) arithmetic. *)
Definition wrap64 (z : Z) : Z := (z + 2 ^ 63) mod 2 ^ 64 - 2 ^ 63.

Definition Nanosecond : Duration := 1.
Definition Second : Duration := 1000000000.
Definition Minute : Duration := 60 * Second.
Definition Hour : Duration := 60 * Minute.

Definition Before (t u : Time) : bool := t <? u.
Definition After (t u : Time) : bool := u <? t.

(** [t.Sub(u)]: the difference, pinned to the largest or smallest
    [Duration] when it does not fit. *)
Definition Sub (t u : Time) : Duration :=
  if maxInt64 <? t - u then maxInt64
  else if t - u <? minInt64 then minInt64
  else t - u.

(** [d1 + d2] on durations. *)
Definition add (d1 d2 : Duration) : Duration := wrap64 (d1 + d2).

End GoTime.
Import GoTime.

(** ** Run-time failures

    A nil dereference or an index out of range stops a Go program.  Code
    that can do so returns an [exec]. *)

Inductive exec (A : Type) : Type :=
| Done (a : A)
| Panic.
Arguments Done {A} a.
Arguments Panic {A}.

Definition exec_bind {A B} (x : exec A) (k : A -> exec B) : exec B :=
  match x with
  | Done a => k a
  | Panic => Panic
  end.

Notation "'let!' x ':=' c1 'in' c2" := (exec_bind c1 (fun x => c2))
  (at level 10, x pattern, c1 at level 100, c2 at level 200).

(** ** The types of [gitclient] *)

Module Gitclient.

(** A non-nil [*string]: the cell it points to and what the cell holds.
    Go's [==] on two [*string] compares the cells, not the texts. *)
Record strref : Type := { ref_addr : N; ref_val : string }.

(** A [*string]; [None] is nil. *)
Definition strptr : Type := option strref.

Definition ptr_eqb (p q : strptr) : bool :=
  match p, q with
  | None, None => true
  | Some a, Some b => (ref_addr a =? ref_addr b)%N
  | _, _ => false
  end.

(** [*p] *)
Definition deref (p : strptr) : exec string :=
  match p with
  | Some r => Done (ref_val r)
  | None => Panic
  end.

(** [CreatedAt] is a [*time.Time] that [newPullRequestComment] always
    sets and [metrics] always dereferences; it is kept as its pointee. *)
Record PullRequestComment : Type := {
  PullRequestReviewID : Z;
  CommentUserID : Z;
  Path : strptr;
  OriginalPosition : Z;
  CommentCreatedAt : Time
}.

(** [SubmittedAt] is a [*time.Time]; [None] is nil.  [UserLogin] is
    dereferenced wherever it is read and is kept as its pointee. *)
Record PullRequestReview : Type := {
  ID : Z;
  UserID : Z;
  UserLogin : string;
  SubmittedAt : option Time
}.

Record RepositoryCommitFile : Type := {
  Filename : strptr;
  Patch : strptr
}.

Record RepositoryCommit : Type := {
  CommitCreatedAt : Time;
  Files : list RepositoryCommitFile
}.

(** [Title] is read by the log line only, which the model leaves out. *)
Record PullRequest : Type := {
  Number : Z;
  PRUserLogin : string;
  PRCreatedAt : Time
}.

(** Go's [error] values of this program. *)
Inductive error : Type :=
| RateLimitReached (wait : Duration)
    (* "Rate limit reached and will be reset in " + duration.String() *)
| ApiError (msg : string).

(** The [GitClient] interface.  An implementation may keep state (the
    GitHub client counts its calls, a test double records them), so every
    method takes the state of the client and returns the next one.  The
    slices hold pointers; only [GetReviews] of the GitHub client produces
    nil entries, so only there an entry is an [option]. *)
(** [GetApiRateUsed] and [GetApiRateRemaining] feed the log line only and
    are left out. *)
Record GitClient (St : Type) : Type := {
  GetPullRequests : St -> string -> string -> Time -> Time ->
                    St * (list PullRequest * option error);
  GetComments : St -> string -> string -> Z ->
                St * (list PullRequestComment * option error);
  GetReviews : St -> string -> string -> Z ->
               St * (list (option PullRequestReview) * option error);
  GetCommits : St -> string -> string -> Z -> Time -> bool ->
               St * (list RepositoryCommit * list error)
}.
Arguments GetPullRequests {St}.
Arguments GetComments {St}.
Arguments GetReviews {St}.
Arguments GetCommits {St}.

End Gitclient.
Import Gitclient.

(** ** [gitclient/github.go] *)

Module Github.

(** What the program reads of go-github's [Rate], [Response],
    [PullRequest] and [PullRequestReview].  [newPullRequest] dereferences
    [Number], [User] and [CreatedAt] without a check, so they are kept as
    their pointees. *)
Record Rate : Type := { Remaining : Z; Reset : Time }.

Record Response : Type := { NextPage : Z; RespRate : Rate }.

Record GhPullRequest : Type := {
  GhNumber : Z;
  GhUserLogin : string;
  GhCreatedAt : Time
}.

Record GhPullRequestReview : Type := {
  GhReviewID : Z;
  GhReviewUserID : Z;
  GhReviewUserLogin : string;
  GhSubmittedAt : option Time
}.

Record GitHubClient : Type := {
  apiRateUsed : Z;
  apiRateRemaining : Z
}.

(** [resp] is a [*github.Response]; go-github hands out nil when a request
    got no answer at all, and [resp.Rate] then stops the program.  [now] is
    the reading of the clock taken by [time.Until]. *)
Definition verifyRateLimit (now : Time) (g : GitHubClient) (resp : option Response)
    : exec (GitHubClient * option error) :=
  match resp with
  | None => Panic
  | Some resp =>
      let g' := {| apiRateUsed := wrap64 (apiRateUsed g + 1);
                   apiRateRemaining := Remaining (RespRate resp) |} in
      if Remaining (RespRate resp) =? 0
      then Done (g', Some (RateLimitReached (Sub (Reset (RespRate resp)) now)))
      else Done (g', None)
  end.

(** [s[lo:hi]] on a slice as long as its capacity. *)
Definition slice {A} (s : list A) (lo hi : Z) : exec (list A) :=
  if (0 <=? lo) && (lo <=? hi) && (hi <=? Z.of_nat (length s))
  then Done (firstn (Z.to_nat (hi - lo)) (skipn (Z.to_nat lo) s))
  else Panic.

Record filter_state : Type := {
  startIndex : Z;
  endIndex : Z;
  found : bool;
  foundBeforeDateFrom : bool
}.

(** The [for i, pr := range prs] loop of [filterPullRequests]; [prs] is
    what is left of the page from index [i] on. *)
Fixpoint filter_loop (dateFrom dateTo : Time) (i : Z) (prs : list GhPullRequest)
    (st : filter_state) : filter_state :=
  match prs with
  | [] => st
  | pr :: rest =>
      let createdAt := GhCreatedAt pr in
      if Before createdAt dateFrom then
        (* break *)
        {| startIndex := startIndex st; endIndex := endIndex st;
           found := found st; foundBeforeDateFrom := true |}
      else
        let st1 := {| startIndex := startIndex st; endIndex := i;
                      found := found st;
                      foundBeforeDateFrom := foundBeforeDateFrom st |} in
        if After createdAt dateTo then
          (* continue *)
          filter_loop dateFrom dateTo (i + 1) rest st1
        else
          filter_loop dateFrom dateTo (i + 1) rest
            {| startIndex := if startIndex st1 =? -1 then i else startIndex st1;
               endIndex := endIndex st1;
               found := true;
               foundBeforeDateFrom := foundBeforeDateFrom st1 |}
  end.

Definition filterPullRequests (prs : list GhPullRequest) (dateFrom dateTo : Time)
    : exec (list GhPullRequest * bool * bool) :=
  match prs with
  | [] => Done ([], false, false)
  | _ :: _ =>
      let st := filter_loop dateFrom dateTo 0 prs
                  {| startIndex := -1; endIndex := -1;
                     found := false; foundBeforeDateFrom := false |} in
      if negb (found st) then Done ([], false, foundBeforeDateFrom st)
      else
        let! result := slice prs (startIndex st) (endIndex st + 1) in
        Done (result, found st, foundBeforeDateFrom st)
  end.

Definition newPullRequest (pr : GhPullRequest) : PullRequest :=
  {| Number := GhNumber pr; PRUserLogin := GhUserLogin pr;
     PRCreatedAt := GhCreatedAt pr |}.

Definition newPullRequestSlice (rcs : list GhPullRequest) : list PullRequest :=
  map newPullRequest rcs.

Definition newPullRequestReview (prr : GhPullRequestReview)
    : option PullRequestReview :=
  match GhSubmittedAt prr with
  | None => None
  | Some t =>
      Some {| ID := GhReviewID prr; UserID := GhReviewUserID prr;
              UserLogin := GhReviewUserLogin prr; SubmittedAt := Some t |}
  end.

Definition newPullRequestReviewSlice (prr : list GhPullRequestReview)
    : list (option PullRequestReview) :=
  map newPullRequestReview prr.

(** The answer of [PullRequests.List] to the request for one page; the
    response may be nil. *)
Definition ListAnswer : Type :=
  list GhPullRequest * option Response * option error.

(** The [for { ... }] loop of [GetPullRequests].  [api] answers a request
    by its page number ([opts.Page], 0 at first).  The loop ends when the
    server reports no next page or the filter its stop signal; [fuel]
    bounds the number of pages and [None] tells that it ran out. *)
Fixpoint GetPullRequests_loop (fuel : nat) (now : Time) (api : Z -> ListAnswer)
    (dateFrom dateTo : Time) (g : GitHubClient) (page : Z)
    (allPRs : list PullRequest)
    : option (exec (GitHubClient * (list PullRequest * option error))) :=
  match fuel with
  | O => None
  | S fuel' =>
      let '(prs, resp, err) := api page in
      (* g.verifyRateLimit(resp): the returned error is not looked at *)
      match verifyRateLimit now g resp, resp with
      | Done (g', _), Some resp =>
          match err with
          | Some e => Some (Done (g', ([], Some e)))
          | None =>
              match filterPullRequests prs dateFrom dateTo with
              | Panic => Some Panic
              | Done (prsFiltered, found, foundBeforeDateFrom) =>
                  let allPRs' :=
                    if found then allPRs ++ newPullRequestSlice prsFiltered
                    else allPRs in
                  if (NextPage resp =? 0) || foundBeforeDateFrom
                  then Some (Done (g', (allPRs', None)))
                  else GetPullRequests_loop fuel' now api dateFrom dateTo g'
                         (NextPage resp) allPRs'
              end
          end
      | _, _ => Some Panic
      end
  end.

Definition GetPullRequests (fuel : nat) (now : Time) (api : Z -> ListAnswer)
    (g : GitHubClient) (dateFrom dateTo : Time)
    : option (exec (GitHubClient * (list PullRequest * option error))) :=
  GetPullRequests_loop fuel now api dateFrom dateTo g 0 [].

(** [GetReviews], given the answer of [PullRequests.ListReviews]. *)
Definition GetReviews (now : Time) (g : GitHubClient)
    (answer : list GhPullRequestReview * option Response * option error)
    : exec (GitHubClient * (list (option PullRequestReview) * option error)) :=
  let '(reviews, resp, err) := answer in
  let! checked := verifyRateLimit now g resp in
  Done (fst checked, (newPullRequestReviewSlice reviews, err)).

(** What the program reads of go-github's [CommitFile] and
    [RepositoryCommit]; [commit.Commit.Committer.Date] is read without a
    check and is kept as its pointee. *)
Record GhCommitFile : Type := { GhFilename : strptr; GhPatch : strptr }.

Record GhRepositoryCommit : Type := {
  GhSHA : string;
  GhCommitterDate : Time;
  GhFiles : list GhCommitFile
}.

(** [processError(&err, &errs)]; [errs] is a slice and [None] the nil
    slice, to which nothing is appended. *)
Definition processError (err : option error) (errs : option (list error))
    : option (list error) :=
  match err with
  | Some e =>
      match errs with
      | Some l => Some (l ++ [e])
      | None => None
      end
  | None => errs
  end.

(** The file names and patches are handed on as the pointers they are. *)
Definition newRepositoryCommit (rc : GhRepositoryCommit) : RepositoryCommit :=
  {| CommitCreatedAt := GhCommitterDate rc;
     Files := map (fun file => {| Filename := GhFilename file;
                                  Patch := GhPatch file |})
                  (GhFiles rc) |}.

Definition newRepositoryCommitSlice (rcs : list GhRepositoryCommit)
    : list RepositoryCommit :=
  map newRepositoryCommit rcs.

(** The answer of [Repositories.GetCommit]; the commit and the response
    may be nil. *)
Definition CommitAnswer : Type :=
  option GhRepositoryCommit * option Response * option error.

(** The [for _, commit := range commits] loop of [GetCommits]: the client,
    the errors and the commits as the loop leaves them.  [getCommit]
    answers a request by the SHA of the commit. *)
Fixpoint GetCommits_loop (now : Time) (getCommit : string -> CommitAnswer)
    (firstCommentTime : Time) (includeFiles : bool) (g : GitHubClient)
    (errs : option (list error)) (commits : list GhRepositoryCommit)
    : exec (GitHubClient * option (list error) * list GhRepositoryCommit) :=
  match commits with
  | [] => Done (g, errs, [])
  | commit :: rest =>
      if After (GhCommitterDate commit) firstCommentTime then
        if includeFiles then
          let '(detailedCommit, resp, err) := getCommit (GhSHA commit) in
          let! checked := verifyRateLimit now g resp in
          let g' := fst checked in
          let errs' := processError err errs in
          match detailedCommit with
          | None => Panic (* detailedCommit.Files *)
          | Some detailed =>
              let commit' := {| GhSHA := GhSHA commit;
                                GhCommitterDate := GhCommitterDate commit;
                                GhFiles := GhFiles detailed |} in
              let! r := GetCommits_loop now getCommit firstCommentTime
                          includeFiles g' errs' rest in
              let '(g'', errs'', rest') := r in
              Done (g'', errs'', commit' :: rest')
          end
        else
          let! r := GetCommits_loop now getCommit firstCommentTime
                      includeFiles g errs rest in
          let '(g'', errs'', rest') := r in
          Done (g'', errs'', commit :: rest')
      else
        let! r := GetCommits_loop now getCommit firstCommentTime
                    includeFiles g errs rest in
        let '(g'', errs'', rest') := r in
        Done (g'', errs'', commit :: rest')
  end.

(** [GetCommits], given the answer of [PullRequests.ListCommits].  The
    caller measures the errors with [len], to which the nil slice and the
    empty one are alike. *)
Definition GetCommits (now : Time)
    (answer : list GhRepositoryCommit * option Response * option error)
    (getCommit : string -> CommitAnswer) (g : GitHubClient)
    (firstCommentTime : Time) (includeFiles : bool)
    : exec (GitHubClient * (list RepositoryCommit * list error)) :=
  let '(commits, resp, err) := answer in
  let! checked := verifyRateLimit now g resp in
  let g1 := fst checked in
  let errs := processError err (Some []) in
  let! r := GetCommits_loop now getCommit firstCommentTime includeFiles g1 errs
              commits in
  let '(g', errs', commits') := r in
  Done (g', (newRepositoryCommitSlice commits', default [] errs')).

End Github.

(** ** The [metrics] package *)

Module Metrics.

(** *** The period merger *)

(** [sort.Slice(dateTimes, func(i, j) { return dateTimes[i].Before(dateTimes[j]) })]:
    the slice ends up in ascending order.  On instants that order is
    unique, so any sorting procedure models it. *)
Fixpoint insert_time (t : Time) (l : list Time) : list Time :=
  match l with
  | [] => [t]
  | u :: l' => if Before u t then u :: insert_time t l' else t :: l
  end.

Fixpoint sort_Slice (l : list Time) : list Time :=
  match l with
  | [] => []
  | t :: l' => insert_time t (sort_Slice l')
  end.

Definition minDuration : Duration := 3 * Minute.
Definition threshold : Duration := 30 * Minute.

(** The [for i := 1; i < len(dateTimes); i++] loop followed by the
    addition of the last period.  [prev] is [dateTimes[i-1]], [rest] is
    [dateTimes[i:]]. *)
Fixpoint period_loop (prev start end_ : Time) (totalDuration : Duration)
    (rest : list Time) : Duration :=
  match rest with
  | [] => add totalDuration (Sub end_ start)
  | t :: rest' =>
      let diff := Sub t prev in
      if diff <=? threshold
      then period_loop t start t totalDuration rest'
      else period_loop t t t (add totalDuration (Sub end_ start)) rest'
  end.

(** [dateTimes] after the sort. *)
Definition dateTimes_of (reviewComments : list PullRequestComment)
    (reviewSubmittedAt : Time) : list Time :=
  sort_Slice (reviewSubmittedAt :: map CommentCreatedAt reviewComments).

(** [totalDuration] just before the final comparison with [minDuration]. *)
Definition total_of (dateTimes : list Time) : Duration :=
  match dateTimes with
  | [] => 0 (* not reached: dateTimes holds reviewSubmittedAt *)
  | t0 :: rest => period_loop t0 t0 t0 0 rest
  end.

Definition CalculateTotalCommentPeriodLength
    (reviewComments : list PullRequestComment) (reviewSubmittedAt : Time)
    : Duration :=
  match reviewComments with
  | [] => minDuration
  | _ :: _ =>
      let totalDuration := total_of (dateTimes_of reviewComments reviewSubmittedAt) in
      if totalDuration <=? minDuration then minDuration else totalDuration
  end.

(** *** The change-attribution matcher *)

Fixpoint has_prefix (p s : string) : bool :=
  match p, s with
  | EmptyString, _ => true
  | String a p', String b s' => Ascii.eqb a b && has_prefix p' s'
  | String _ _, EmptyString => false
  end.

(** [strings.Contains(s, substr)] *)
Fixpoint strings_Contains (s substr : string) : bool :=
  has_prefix substr s ||
  match s with
  | EmptyString => false
  | String _ s' => strings_Contains s' substr
  end.

(** [fmt.Sprintf("@@ -%d", n)] *)
Definition hunk_pattern (n : Z) : string := "@@ -" +:+ pretty n.

(** The [for _, file := range commit.Files] loop. *)
Fixpoint files_loop (comment : PullRequestComment)
    (files : list RepositoryCommitFile) : exec bool :=
  match files with
  | [] => Done false
  | file :: rest =>
      if ptr_eqb (Filename file) (Path comment) then
        let! patch := deref (Patch file) in
        if negb (String.eqb patch "") &&
           strings_Contains patch (hunk_pattern (OriginalPosition comment))
        then Done true
        else files_loop comment rest
      else files_loop comment rest
  end.

Definition isCommentAddressedByCommit (comment : PullRequestComment)
    (commit : RepositoryCommit) : exec bool :=
  files_loop comment (Files commit).

(** *** Grouping *)

(** [m[k]] on a map of slices: a missing key reads as the nil slice. *)
Definition slice_at `{Countable K} {A} (m : gmap K (list A)) (k : K) : list A :=
  default [] (m !! k).

Fixpoint getReviewComments_loop (comments : list PullRequestComment)
    (result : gmap Z (gmap Z (list PullRequestComment)))
    : gmap Z (gmap Z (list PullRequestComment)) :=
  match comments with
  | [] => result
  | comment :: rest =>
      let reviewID := PullRequestReviewID comment in
      let userID := CommentUserID comment in
      let result1 :=
        match result !! reviewID with
        | None => <[reviewID := ∅]> result
        | Some _ => result
        end in
      let inner := default ∅ (result1 !! reviewID) in
      let inner' :=
        match inner !! userID with
        | None => <[userID := [comment]]> inner
        | Some l => <[userID := l ++ [comment]]> inner
        end in
      getReviewComments_loop rest (<[reviewID := inner']> result1)
  end.

Definition getReviewComments (comments : list PullRequestComment)
    : gmap Z (gmap Z (list PullRequestComment)) :=
  getReviewComments_loop comments ∅.

(** [reviewComments[reviewID][userID]]; a missing key reads as nil at
    either level. *)
Definition comments_at (reviewComments : gmap Z (gmap Z (list PullRequestComment)))
    (reviewID userID : Z) : list PullRequestComment :=
  slice_at (default ∅ (reviewComments !! reviewID)) userID.

(** The loop of [getUserReviews].  An entry of [reviews] is a pointer;
    reading [review.SubmittedAt] through a nil one stops the program. *)
Fixpoint getUserReviews_loop (reviews : list (option PullRequestReview))
    (result : gmap string (list PullRequestReview))
    : exec (gmap string (list PullRequestReview)) :=
  match reviews with
  | [] => Done result
  | None :: _ => Panic
  | Some review :: rest =>
      match SubmittedAt review with
      | Some _ =>
          let userLogin := UserLogin review in
          let result1 :=
            match result !! userLogin with
            | None => <[userLogin := []]> result
            | Some _ => result
            end in
          getUserReviews_loop rest
            (<[userLogin := slice_at result1 userLogin ++ [review]]> result1)
      | None => getUserReviews_loop rest result
      end
  end.

Definition getUserReviews (reviews : list (option PullRequestReview))
    : exec (gmap string (list PullRequestReview)) :=
  getUserReviews_loop reviews ∅.

(** *** The aggregator *)

Record ContributorMetrics : Type := {
  PRsReviewed : Z;
  TotalComments : Z;
  AverageCommentsPerReview : float;
  AverageTimeToFirstReview : Duration;
  AverageTimeToCompleteReview : Duration;
  TotalLinesReviewed : Z;
  AverageLinesReviewed : float;
  PercentageCommentsLeadingToChanges : float
}.

(** [&ContributorMetrics{}] *)
Definition zero_metrics : ContributorMetrics :=
  {| PRsReviewed := 0; TotalComments := 0; AverageCommentsPerReview := 0;
     AverageTimeToFirstReview := 0; AverageTimeToCompleteReview := 0;
     TotalLinesReviewed := 0; AverageLinesReviewed := 0;
     PercentageCommentsLeadingToChanges := 0 |}.

(** [float64(n)] for an [int] *)
Definition float64_of_int (n : Z) : float :=
  if n <? 0 then PrimFloat.opp (PrimFloat.of_uint63 (Uint63.of_Z (- n)))
  else PrimFloat.of_uint63 (Uint63.of_Z n).

(** The [for _, commit := range commits] loop for one comment: whether it
    left through [break] after a match. *)
Fixpoint commits_loop (comment : PullRequestComment)
    (commits : list RepositoryCommit) : exec bool :=
  match commits with
  | [] => Done false
  | commit :: rest =>
      if After (CommitCreatedAt commit) (CommentCreatedAt comment) then
        let! addressed := isCommentAddressedByCommit comment commit in
        if addressed then Done true else commits_loop comment rest
      else commits_loop comment rest
  end.

(** The [for _, comment := range comments] loop. *)
Fixpoint count_loop (comments : list PullRequestComment)
    (commits : list RepositoryCommit) (commentsLeadingToChanges : Z) : exec Z :=
  match comments with
  | [] => Done commentsLeadingToChanges
  | comment :: rest =>
      let! hit := commits_loop comment commits in
      count_loop rest commits
        (if hit then wrap64 (commentsLeadingToChanges + 1)
         else commentsLeadingToChanges)
  end.

(** The body of [for _, review := range reviews]. *)
Definition review_step (pr : PullRequest)
    (reviewComments : gmap Z (gmap Z (list PullRequestComment)))
    (comments : list PullRequestComment) (commits : list RepositoryCommit)
    (userMetrics : ContributorMetrics) (review : PullRequestReview)
    : exec ContributorMetrics :=
  match SubmittedAt review with
  | None => Panic
  | Some firstReviewTime =>
      let timeToFirstReview := Sub firstReviewTime (PRCreatedAt pr) in
      let mine := comments_at reviewComments (ID review) (UserID review) in
      let! commentsLeadingToChanges := count_loop comments commits 0 in
      Done {|
        PRsReviewed := PRsReviewed userMetrics;
        TotalComments :=
          wrap64 (TotalComments userMetrics + Z.of_nat (length mine));
        AverageCommentsPerReview := AverageCommentsPerReview userMetrics;
        AverageTimeToFirstReview :=
          add (AverageTimeToFirstReview userMetrics) timeToFirstReview;
        AverageTimeToCompleteReview :=
          add (AverageTimeToCompleteReview userMetrics)
              (CalculateTotalCommentPeriodLength mine firstReviewTime);
        TotalLinesReviewed := TotalLinesReviewed userMetrics;
        AverageLinesReviewed := AverageLinesReviewed userMetrics;
        PercentageCommentsLeadingToChanges :=
          float64_of_int commentsLeadingToChanges
      |}
  end.

Fixpoint reviews_loop (pr : PullRequest)
    (reviewComments : gmap Z (gmap Z (list PullRequestComment)))
    (comments : list PullRequestComment) (commits : list RepositoryCommit)
    (userMetrics : ContributorMetrics) (reviews : list PullRequestReview)
    : exec ContributorMetrics :=
  match reviews with
  | [] => Done userMetrics
  | review :: rest =>
      let! userMetrics' :=
        review_step pr reviewComments comments commits userMetrics review in
      reviews_loop pr reviewComments comments commits userMetrics' rest
  end.

Definition incr_PRsReviewed (m : ContributorMetrics) : ContributorMetrics :=
  {| PRsReviewed := wrap64 (PRsReviewed m + 1);
     TotalComments := TotalComments m;
     AverageCommentsPerReview := AverageCommentsPerReview m;
     AverageTimeToFirstReview := AverageTimeToFirstReview m;
     AverageTimeToCompleteReview := AverageTimeToCompleteReview m;
     TotalLinesReviewed := TotalLinesReviewed m;
     AverageLinesReviewed := AverageLinesReviewed m;
     PercentageCommentsLeadingToChanges := PercentageCommentsLeadingToChanges m |}.

(** The body of [for user, reviews := range userReviews].  The map holds
    pointers and the body writes through [metrics[user]]; here the record
    is written back at the end of the body. *)
Definition user_step (pr : PullRequest)
    (reviewComments : gmap Z (gmap Z (list PullRequestComment)))
    (comments : list PullRequestComment) (commits : list RepositoryCommit)
    (metrics : gmap string ContributorMetrics)
    (entry : string * list PullRequestReview)
    : exec (gmap string ContributorMetrics) :=
  let '(user, reviews) := entry in
  if negb (String.eqb user (PRUserLogin pr)) then
    let userMetrics := incr_PRsReviewed (default zero_metrics (metrics !! user)) in
    let! userMetrics' :=
      reviews_loop pr reviewComments comments commits userMetrics reviews in
    Done (<[user := userMetrics']> metrics)
  else Done metrics.

(** The range over [userReviews], over its entries in some order.  Go
    leaves the order open; the body touches the metrics of its own user
    only. *)
Fixpoint users_loop (pr : PullRequest)
    (reviewComments : gmap Z (gmap Z (list PullRequestComment)))
    (comments : list PullRequestComment) (commits : list RepositoryCommit)
    (metrics : gmap string ContributorMetrics)
    (entries : list (string * list PullRequestReview))
    : exec (gmap string ContributorMetrics) :=
  match entries with
  | [] => Done metrics
  | entry :: rest =>
      let! metrics' :=
        user_step pr reviewComments comments commits metrics entry in
      users_loop pr reviewComments comments commits metrics' rest
  end.

(** How the body of [for _, pr := range prs] ends: with the metrics so
    far, or with the [return nil, ...] of a failed fetch. *)
Inductive pr_outcome : Type :=
| Next (metrics : gmap string ContributorMetrics)
| Return (errs : list error).

Section WithClient.

Context {St : Type} (client : GitClient St) (owner repo : string).

(** The body of [for _, pr := range prs]. *)
Definition pr_step (st : St) (metrics : gmap string ContributorMetrics)
    (pr : PullRequest) : exec (St * pr_outcome) :=
  let '(st1, (reviewsRaw, err)) := GetReviews client st owner repo (Number pr) in
  match err with
  | Some e => Done (st1, Return [e])
  | None =>
      let! userReviews := getUserReviews reviewsRaw in
      let '(st2, (comments, err)) := GetComments client st1 owner repo (Number pr) in
      match err with
      | Some e => Done (st2, Return [e])
      | None =>
          let reviewComments := getReviewComments comments in
          let fetched :=
            match comments with
            | [] => (st2, ([], []))
            | first :: _ =>
                GetCommits client st2 owner repo (Number pr)
                  (CommentCreatedAt first) true
            end in
          let '(st3, (commits, errs)) := fetched in
          if (0 <? Z.of_nat (length errs)) then Done (st3, Return errs)
          else
            let! metrics' :=
              users_loop pr reviewComments comments commits metrics
                (map_to_list userReviews) in
            Done (st3, Next metrics')
      end
  end.

Fixpoint prs_loop (st : St) (metrics : gmap string ContributorMetrics)
    (prs : list PullRequest) : exec (St * pr_outcome) :=
  match prs with
  | [] => Done (st, Next metrics)
  | pr :: rest =>
      let! r := pr_step st metrics pr in
      match r with
      | (st', Next metrics') => prs_loop st' metrics' rest
      | (st', Return errs) => Done (st', Return errs)
      end
  end.

(** The body of the final [for _, userMetrics := range metrics]. *)
Definition finalize (userMetrics : ContributorMetrics) : ContributorMetrics :=
  let n := PRsReviewed userMetrics in
  let m1 :=
    if 0 <? n then
      {| PRsReviewed := n;
         TotalComments := TotalComments userMetrics;
         AverageCommentsPerReview :=
           PrimFloat.div (float64_of_int (TotalComments userMetrics))
                         (float64_of_int n);
         AverageTimeToFirstReview :=
           Z.quot (AverageTimeToFirstReview userMetrics) n;
         AverageTimeToCompleteReview :=
           Z.quot (AverageTimeToCompleteReview userMetrics) n;
         TotalLinesReviewed := TotalLinesReviewed userMetrics;
         AverageLinesReviewed :=
           PrimFloat.div (float64_of_int (TotalLinesReviewed userMetrics))
                         (float64_of_int n);
         PercentageCommentsLeadingToChanges :=
           PercentageCommentsLeadingToChanges userMetrics |}
    else userMetrics in
  if 0 <? TotalComments m1 then
    let p := PercentageCommentsLeadingToChanges m1 in
    {| PRsReviewed := PRsReviewed m1;
       TotalComments := TotalComments m1;
       AverageCommentsPerReview := AverageCommentsPerReview m1;
       AverageTimeToFirstReview := AverageTimeToFirstReview m1;
       AverageTimeToCompleteReview := AverageTimeToCompleteReview m1;
       TotalLinesReviewed := TotalLinesReviewed m1;
       AverageLinesReviewed := AverageLinesReviewed m1;
       PercentageCommentsLeadingToChanges :=
         PrimFloat.div p
           (PrimFloat.mul
              (PrimFloat.div p (float64_of_int (TotalComments m1)))
              100) |}
  else m1.

(** [CalculateMetrics]: the state of the client afterwards, the map
    ([None] is the nil map) and the errors. *)
Definition CalculateMetrics (st : St) (dateFrom dateTo : Time)
    : exec (St * (option (gmap string ContributorMetrics) * list error)) :=
  let '(st1, (prs, err)) := GetPullRequests client st owner repo dateFrom dateTo in
  match err with
  | Some e => Done (st1, (None, [e]))
  | None =>
      let! r := prs_loop st1 ∅ prs in
      match r with
      | (st', Return errs) => Done (st', (None, errs))
      | (st', Next metrics) => Done (st', (Some (finalize <$> metrics), []))
      end
  end.

End WithClient.

End Metrics.
Import Metrics.

(** ** The period merger in the words of its description

    Sessions are the maximal runs of the ascending time stamps in which
    neighbours are at most thirty minutes apart; the total is the sum of
    [sessionEnd - sessionStart] over them. *)

Module PeriodSpec.

(** The sessions of an ascending list, the earliest first. *)
Fixpoint sessions (ts : list Time) : list (list Time) :=
  match ts with
  | [] => []
  | t :: ts' =>
      match sessions ts' with
      | s :: ss =>
          if hd t s - t >? 30 * Minute then [t] :: s :: ss else (t :: s) :: ss
      | [] => [[t]]
      end
  end.

(** [sessionEnd - sessionStart] *)
Definition span (s : list Time) : Z := List.last s 0 - hd 0 s.

Definition sum_spans (ss : list (list Time)) : Z :=
  fold_right (fun s acc => span s + acc) 0 ss.

(** Neighbours in [l] are at most [g] apart. *)
Fixpoint gaps_within (g : Z) (l : list Time) : Prop :=
  match l with
  | [] => True
  | a :: l' =>
      match l' with
      | [] => True
      | b :: _ => b - a <= g /\ gaps_within g l'
      end
  end.

(** [hi] is the latest and [lo] the earliest instant of [ts]. *)
Definition latest (hi : Time) (ts : list Time) : Prop :=
  In hi ts /\ Forall (fun t => t <= hi) ts.
Definition earliest (lo : Time) (ts : list Time) : Prop :=
  In lo ts /\ Forall (fun t => lo <= t) ts.

(** Two consecutive sessions are more than thirty minutes apart. *)
Fixpoint sessions_apart (ss : list (list Time)) : Prop :=
  match ss with
  | [] => True
  | s1 :: ss' =>
      match ss' with
      | [] => True
      | s2 :: _ => hd 0 s2 - List.last s1 0 > 30 * Minute /\ sessions_apart ss'
      end
  end.

End PeriodSpec.
Import PeriodSpec.

(** ** The window filter in the words of its description *)

Module WindowSpec.
Import Github.

(** [createdAt] strictly before [dateFrom] *)
Definition older (dateFrom : Time) (pr : GhPullRequest) : bool :=
  GhCreatedAt pr <? dateFrom.

(** [createdAt] strictly after [dateTo] *)
Definition newer (dateTo : Time) (pr : GhPullRequest) : bool :=
  dateTo <? GhCreatedAt pr.

(** [dateFrom <= createdAt <= dateTo] *)
Definition in_window (dateFrom dateTo : Time) (pr : GhPullRequest) : bool :=
  (dateFrom <=? GhCreatedAt pr) && (GhCreatedAt pr <=? dateTo).

(** A page sorted by creation time, the latest first. *)
Definition descending (prs : list GhPullRequest) : Prop :=
  Sorted (fun a b => GhCreatedAt b <= GhCreatedAt a) prs.

(** The longest prefix of [l] on which [f] holds. *)
Fixpoint take_while {A} (f : A -> bool) (l : list A) : list A :=
  match l with
  | [] => []
  | x :: l' => if f x then x :: take_while f l' else []
  end.

(** The pull requests that the scan looks at and does not stop on. *)
Definition scanned (dateFrom : Time) (prs : list GhPullRequest)
    : list GhPullRequest :=
  take_while (fun pr => negb (older dateFrom pr)) prs.

End WindowSpec.

(** ** Inputs used in the examples *)

Module Scenarios.
Import Github.

(** A comment of review 1 by user 11, created at [t]. *)
Definition comment_at (t : Time) : PullRequestComment :=
  {| PullRequestReviewID := 1; CommentUserID := 11; Path := None;
     OriginalPosition := 0; CommentCreatedAt := t |}.

Definition gh_pr (n : Z) (login : string) (t : Time) : GhPullRequest :=
  {| GhNumber := n; GhUserLogin := login; GhCreatedAt := t |}.

(** A descending page around the window [[10 h, 20 h]]. *)
Definition page : list GhPullRequest :=
  [gh_pr 5 "a" (25 * Hour); gh_pr 4 "b" (20 * Hour); gh_pr 3 "c" (15 * Hour);
   gh_pr 2 "d" (10 * Hour); gh_pr 1 "e" (5 * Hour)].

(** The page of [TestFilterPullRequests], which is ascending; the clock of
    the test reads 100 h. *)
Definition test_page : list GhPullRequest :=
  [gh_pr 1 "a" (98 * Hour); gh_pr 2 "b" (99 * Hour)].

(** The rate of an answer that used up the quota, to be reset at 50 h. *)
Definition exhausted : Rate := {| Remaining := 0; Reset := 50 * Hour |}.

(** The request that uses up the quota is answered as any other: one page
    of pull requests, the last one, whose response reports that nothing
    remains. *)
Definition last_call_api (page : Z) : ListAnswer :=
  ([gh_pr 2 "contributor1" (15 * Hour)],
   Some {| NextPage := 0; RespRate := exhausted |}, None).

(** Two pages of pull requests.  The answer to the first request reports
    an exhausted quota, to be reset at 50 h; the second request, sent once
    the clock has reached the reset, is answered from the new quota. *)
Definition exhausted_api (page : Z) : ListAnswer :=
  if page =? 0
  then ([gh_pr 2 "contributor1" (15 * Hour)],
        Some {| NextPage := 2; RespRate := exhausted |}, None)
  else ([gh_pr 1 "contributor2" (12 * Hour)],
        Some {| NextPage := 0;
                RespRate := {| Remaining := 4999; Reset := 51 * Hour |} |}, None).

(** An answer of the server with quota to spare. *)
Definition quota_left : Response :=
  {| NextPage := 0; RespRate := {| Remaining := 4999; Reset := 50 * Hour |} |}.

Definition fresh_client : GitHubClient :=
  {| apiRateUsed := 1; apiRateRemaining := 0 |}.

(** [github.String(s)]: a new cell holding [s]. *)
Definition String_at (addr : N) (s : string) : strptr :=
  Some {| ref_addr := addr; ref_val := s |}.

(** A comment on [file.go] at original position 10, and a later commit that
    changes [file.go] in a hunk starting at line 10.  As in the test of the
    repository and as after decoding two answers of the server, the two
    file names are equal texts in two cells. *)
Definition file_go_comment : PullRequestComment :=
  {| PullRequestReviewID := 1; CommentUserID := 11;
     Path := String_at 1 "file.go"; OriginalPosition := 10;
     CommentCreatedAt := 168 * Hour |}.

Definition file_go_commit : RepositoryCommit :=
  {| CommitCreatedAt := 169 * Hour;
     Files := [{| Filename := String_at 2 "file.go";
                  Patch := String_at 3 "@@ -10,7 +10,9 @@" |}] |}.

(** The same commit, its file name being the very cell of the comment. *)
Definition file_go_commit_shared : RepositoryCommit :=
  {| CommitCreatedAt := 169 * Hour;
     Files := [{| Filename := Path file_go_comment;
                  Patch := String_at 3 "@@ -10,7 +10,9 @@" |}] |}.

(** A test double in the manner of [MockGitClient]: it answers every call
    with the same data and counts the calls. *)
Definition mock (prs : list PullRequest * option error)
    (reviews : list (option PullRequestReview) * option error)
    (comments : list PullRequestComment * option error)
    (commits : list RepositoryCommit * list error) : GitClient nat :=
  {| Gitclient.GetPullRequests := fun st _ _ _ _ => (S st, prs);
     Gitclient.GetComments := fun st _ _ _ => (S st, comments);
     Gitclient.GetReviews := fun st _ _ _ => (S st, reviews);
     Gitclient.GetCommits := fun st _ _ _ _ _ => (S st, commits) |}.

(** One pull request by [contributor1], created at 0 h. *)
Definition pr1 : PullRequest :=
  {| Number := 1; PRUserLogin := "contributor1"; PRCreatedAt := 0 |}.

Definition review_by (id uid : Z) (login : string) (t : Time)
    : option PullRequestReview :=
  Some {| ID := id; UserID := uid; UserLogin := login; SubmittedAt := Some t |}.

(** One pull request, one review by [reviewer1] submitted at 168 h with one
    comment, and one later commit at the commented line. *)
Definition end_to_end (commit : RepositoryCommit) : GitClient nat :=
  mock ([pr1], None)
       ([review_by 1 11 "reviewer1" (168 * Hour)], None)
       ([file_go_comment], None)
       ([commit], []).

(** The author of the pull request reviews it too. *)
Definition self_review : GitClient nat :=
  mock ([pr1], None)
       ([review_by 1 11 "reviewer1" (168 * Hour);
         review_by 2 12 "contributor1" (170 * Hour)], None)
       ([], None) ([], []).

(** The server lists a submitted review and a pending one, which has no
    [SubmittedAt]. *)
Definition listed_reviews : list GhPullRequestReview :=
  [{| GhReviewID := 1; GhReviewUserID := 11; GhReviewUserLogin := "reviewer1";
      GhSubmittedAt := Some (168 * Hour) |};
   {| GhReviewID := 2; GhReviewUserID := 12; GhReviewUserLogin := "reviewer2";
      GhSubmittedAt := None |}].

(** The running sums of a contributor with one review, one comment and one
    comment leading to a change, before the final pass. *)
Definition one_of_one : ContributorMetrics :=
  {| PRsReviewed := 1; TotalComments := 1; AverageCommentsPerReview := 0;
     AverageTimeToFirstReview := 168 * Hour;
     AverageTimeToCompleteReview := 3 * Minute;
     TotalLinesReviewed := 0; AverageLinesReviewed := 0;
     PercentageCommentsLeadingToChanges := 1 |}.

(** The entry of [login] in the map a run returns, if it returns one. *)
Definition metrics_for {St : Type}
    (r : exec (St * (option (gmap string ContributorMetrics) * list error)))
    (login : string) : option ContributorMetrics :=
  match r with
  | Done (_, (Some m, _)) => m !! login
  | _ => None
  end.

End Scenarios.
Import Scenarios.

(** ** What the grouping, the matcher and the counting come to *)

Module Behaviour.

(** The comments of review [r] written by user [u], in the order of [cs]. *)
Definition comments_of (r u : Z) (cs : list PullRequestComment)
    : list PullRequestComment :=
  List.filter (fun c => (PullRequestReviewID c =? r) && (CommentUserID c =? u)) cs.

(** The non-nil entries of a slice of pointers, in order. *)
Fixpoint present {A} (l : list (option A)) : list A :=
  match l with
  | [] => []
  | Some a :: l' => a :: present l'
  | None :: l' => present l'
  end.

(** The submitted reviews of [login] among [reviews], in order. *)
Definition submitted_by (login : string) (reviews : list (option PullRequestReview))
    : list PullRequestReview :=
  List.filter
    (fun r => match SubmittedAt r with
              | Some _ => String.eqb (UserLogin r) login
              | None => false
              end)
    (present reviews).

(** The test that [isCommentAddressedByCommit] makes on one file. *)
Definition file_matches (comment : PullRequestComment)
    (file : RepositoryCommitFile) : bool :=
  ptr_eqb (Filename file) (Path comment) &&
  match Patch file with
  | Some r =>
      negb (String.eqb (ref_val r) "") &&
      strings_Contains (ref_val r) (hunk_pattern (OriginalPosition comment))
  | None => false
  end.

(** A file that would be tested has a patch to read. *)
Definition patch_readable (comment : PullRequestComment)
    (file : RepositoryCommitFile) : Prop :=
  ptr_eqb (Filename file) (Path comment) = true -> Patch file <> None.

(** The test that the counting loop makes on one commit. *)
Definition commit_addresses (comment : PullRequestComment)
    (commit : RepositoryCommit) : bool :=
  After (CommitCreatedAt commit) (CommentCreatedAt comment) &&
  existsb (file_matches comment) (Files commit).

(** Whether [GetCommits] asks the server for the files of [commit]. *)
Definition detail_wanted (firstCommentTime : Time) (includeFiles : bool)
    (commit : Github.GhRepositoryCommit) : bool :=
  After (Github.GhCommitterDate commit) firstCommentTime && includeFiles.

(** The commit as [GetCommits] hands it on: with the files of the detailed
    answer when it asked for them, as listed otherwise. *)
Definition with_detail (getCommit : string -> Github.CommitAnswer)
    (firstCommentTime : Time) (includeFiles : bool)
    (commit : Github.GhRepositoryCommit) : Github.GhRepositoryCommit :=
  if detail_wanted firstCommentTime includeFiles commit then
    match fst (fst (getCommit (Github.GhSHA commit))) with
    | Some detailed =>
        {| Github.GhSHA := Github.GhSHA commit;
           Github.GhCommitterDate := Github.GhCommitterDate commit;
           Github.GhFiles := Github.GhFiles detailed |}
    | None => commit
    end
  else commit.

(** The commits whose detail is asked for all get a commit and a response
    in answer. *)
Definition details_present (getCommit : string -> Github.CommitAnswer)
    (firstCommentTime : Time) (includeFiles : bool)
    (commits : list Github.GhRepositoryCommit) : Prop :=
  Forall (fun commit =>
            detail_wanted firstCommentTime includeFiles commit = true ->
            fst (fst (getCommit (Github.GhSHA commit))) <> None /\
            snd (fst (getCommit (Github.GhSHA commit))) <> None) commits.

(** The client after a request that was answered with [resp]. *)
Definition counted (g : Github.GitHubClient) (resp : Github.Response)
    : Github.GitHubClient :=
  {| Github.apiRateUsed := wrap64 (Github.apiRateUsed g + 1);
     Github.apiRateRemaining := Github.Remaining (Github.RespRate resp) |}.

(** The errors of the detail requests of [GetCommits], in order. *)
Definition detail_errors (getCommit : string -> Github.CommitAnswer)
    (firstCommentTime : Time) (includeFiles : bool)
    (commits : list Github.GhRepositoryCommit) : list error :=
  flat_map (fun commit =>
              match snd (getCommit (Github.GhSHA commit)) with
              | Some e => [e]
              | None => []
              end)
           (List.filter (detail_wanted firstCommentTime includeFiles) commits).

End Behaviour.
Import Behaviour.

(** ** Further inputs *)

Module MoreScenarios.
Import Github.

(** Two reviews by [reviewer1] on the pull request [pr1]. *)
Definition two_reviews : list PullRequestReview :=
  present [review_by 1 11 "reviewer1" (168 * Hour);
           review_by 3 11 "reviewer1" (170 * Hour)].

(** The running sums of [reviewer1] after these two reviews, there being no
    comment. *)
Definition after_two_reviews : ContributorMetrics :=
  {| PRsReviewed := 1; TotalComments := 0; AverageCommentsPerReview := 0;
     AverageTimeToFirstReview := 338 * Hour;
     AverageTimeToCompleteReview := 6 * Minute;
     TotalLinesReviewed := 0; AverageLinesReviewed := 0;
     PercentageCommentsLeadingToChanges := 0 |}.

(** Running sums left by an earlier pull request. *)
Definition earlier_sums : ContributorMetrics :=
  {| PRsReviewed := 1; TotalComments := 0; AverageCommentsPerReview := 0;
     AverageTimeToFirstReview := 0; AverageTimeToCompleteReview := 0;
     TotalLinesReviewed := 0; AverageLinesReviewed := 0;
     PercentageCommentsLeadingToChanges := 57 |}.


(** A server that cannot be reached: no response, and an error. *)
Definition unreachable_api (page : Z) : ListAnswer :=
  ([], None, Some (ApiError "dial tcp: i/o timeout")).

(** Three listed commits, at 100 h, 169 h and 170 h, without files. *)
Definition listed_commits : list GhRepositoryCommit :=
  [{| GhSHA := "a1"; GhCommitterDate := 100 * Hour; GhFiles := [] |};
   {| GhSHA := "b2"; GhCommitterDate := 169 * Hour; GhFiles := [] |};
   {| GhSHA := "c3"; GhCommitterDate := 170 * Hour; GhFiles := [] |}].

(** The detailed answers: the files of [b2]; for [c3] the request fails
    and brings no commit. *)
Definition detail_api (sha : string) : CommitAnswer :=
  if String.eqb sha "c3"
  then (None, Some quota_left, Some (ApiError "404 Not Found"))
  else (Some {| GhSHA := sha; GhCommitterDate := 169 * Hour;
                GhFiles := [{| GhFilename := String_at 2 "file.go";
                               GhPatch := String_at 3 "@@ -10,7 +10,9 @@" |}] |},
        Some quota_left, None).

End MoreScenarios.
Import MoreScenarios.

(** ** Tactics *)

(** Unfolds the constants of durations down to numerals, for [lia]. *)
Ltac go_consts :=
  unfold add, Sub, wrap64, threshold, minDuration, Hour, Minute, Second,
    Nanosecond, maxInt64, minInt64 in *;
  change (2 ^ 63) with 9223372036854775808 in *;
  change (2 ^ 64) with 18446744073709551616 in *.

(** Case analysis on a comparison of the goal. *)
Ltac case_ltb :=
  match goal with
  | |- context [?a <? ?b] => destruct (Z.ltb_spec a b)
  end.

(** * Properties *)

(** ** Sorting *)

Lemma insert_time_perm t l : Permutation (t :: l) (insert_time t l).
Proof.
  induction l as [|u l IH]; simpl; [reflexivity|].
  destruct (Before u t); [|reflexivity].
  rewrite perm_swap. now constructor.
Qed.

Lemma sort_Slice_perm l : Permutation l (sort_Slice l).
Proof.
  induction l as [|t l IH]; simpl; [constructor|].
  rewrite <- insert_time_perm. now constructor.
Qed.

Lemma insert_time_sorted t l :
  StronglySorted Z.le l -> StronglySorted Z.le (insert_time t l).
Proof.
  induction 1 as [|u l Hs IH Hu]; simpl.
  - repeat constructor.
  - unfold Before. destruct (Z.ltb_spec u t) as [Hlt|Hge].
    + constructor; [exact IH|].
      rewrite <- insert_time_perm. constructor; [lia|exact Hu].
    + constructor; [now constructor|].
      constructor; [exact Hge|].
      eapply Forall_impl; [exact Hu|]. simpl. intros; lia.
Qed.

Lemma sort_Slice_sorted l : StronglySorted Z.le (sort_Slice l).
Proof.
  induction l; simpl; [constructor|now apply insert_time_sorted].
Qed.

Lemma sort_Slice_perm_eq l1 l2 :
  Permutation l1 l2 -> sort_Slice l1 = sort_Slice l2.
Proof.
  intros Hp. apply (StronglySorted_unique Z.le).
  - apply sort_Slice_sorted.
  - apply sort_Slice_sorted.
  - rewrite <- !sort_Slice_perm. exact Hp.
Qed.

Lemma sort_Slice_length l : length (sort_Slice l) = length l.
Proof. symmetry. apply Permutation_length, sort_Slice_perm. Qed.

(** ** Arithmetic of durations *)

Lemma wrap64_small z : minInt64 <= z <= maxInt64 -> wrap64 z = z.
Proof.
  intros H. go_consts.
  rewrite Z.mod_small by lia. lia.
Qed.

Lemma Sub_exact t u : minInt64 <= t - u <= maxInt64 -> Sub t u = t - u.
Proof.
  intros H. go_consts. repeat case_ltb; lia.
Qed.

(** Saturation does not change on which side of the threshold a gap falls. *)
Lemma Sub_threshold t u :
  (Sub t u <=? threshold) = negb (t - u >? 30 * Minute).
Proof.
  rewrite Z.gtb_ltb. go_consts.
  repeat case_ltb; simpl;
    match goal with |- (?a <=? ?b) = _ => destruct (Z.leb_spec a b) end; lia.
Qed.

(** ** Sessions *)

Lemma sessions_cons t ts :
  sessions (t :: ts) =
  match sessions ts with
  | s :: ss => if hd t s - t >? 30 * Minute then [t] :: s :: ss else (t :: s) :: ss
  | [] => [[t]]
  end.
Proof. reflexivity. Qed.

Lemma sessions_head t ts : exists s ss, sessions (t :: ts) = (t :: s) :: ss.
Proof.
  rewrite sessions_cons. destruct (sessions ts) as [|s ss]; [now eauto|].
  destruct (_ >? _); eauto.
Qed.

(** The sessions cut the list into consecutive pieces. *)
Lemma sessions_concat ts : concat (sessions ts) = ts.
Proof.
  induction ts as [|t ts IH]; [reflexivity|].
  rewrite sessions_cons. destruct (sessions ts) as [|s ss].
  - simpl in IH. now subst.
  - destruct (_ >? _); simpl in *; now rewrite IH.
Qed.

(** Inside a session neighbours are at most thirty minutes apart. *)
Lemma sessions_gaps ts :
  Forall (gaps_within (30 * Minute)) (sessions ts).
Proof.
  induction ts as [|t ts IH]; [constructor|].
  rewrite sessions_cons. destruct (sessions ts) as [|s ss] eqn:E.
  - repeat constructor.
  - inversion IH as [|? ? Hs Hss]; subst.
    destruct (Z.gtb_spec (hd t s - t) (30 * Minute)) as [Hg|Hg].
    + constructor; [exact I|now constructor].
    + constructor; [|exact Hss].
      destruct s as [|u s]; simpl in *; [exact I|]. split; [lia|exact Hs].
Qed.

(** Two consecutive sessions are more than thirty minutes apart. *)
Lemma sessions_maximal ts : sessions_apart (sessions ts).
Proof.
  induction ts as [|t ts IH]; [exact I|].
  rewrite sessions_cons.
  destruct ts as [|u ts]; [exact I|].
  destruct (sessions_head u ts) as (s & ss & E). rewrite E in *.
  cbn [hd]. destruct (Z.gtb_spec (u - t) (30 * Minute)) as [Hg|Hg].
  - split; [simpl; lia|exact IH].
  - destruct ss as [|s2 ss]; [exact I|].
    destruct IH as [H1 H2]. split; [|exact H2].
    change (List.last (t :: u :: s) 0) with (List.last (u :: s) 0). exact H1.
Qed.

Lemma sum_spans_step a b l :
  sum_spans (sessions (a :: b :: l)) =
  (if b - a >? 30 * Minute then 0 else b - a) + sum_spans (sessions (b :: l)).
Proof.
  rewrite (sessions_cons a).
  destruct (sessions_head b l) as (s & ss & E). rewrite E.
  cbn [hd]. destruct (b - a >? 30 * Minute); unfold sum_spans, span; cbn [fold_right hd].
  - simpl. lia.
  - change (List.last (a :: b :: s) 0) with (List.last (b :: s) 0). lia.
Qed.

Lemma sum_spans_single a : sum_spans (sessions [a]) = 0.
Proof. unfold sum_spans, span. simpl. lia. Qed.

Lemma sum_spans_nonneg ts :
  StronglySorted Z.le ts -> 0 <= sum_spans (sessions ts).
Proof.
  induction 1 as [|a l Hs IH Ha]; [reflexivity|].
  destruct l as [|b l]; [now rewrite sum_spans_single|].
  rewrite sum_spans_step. apply Forall_cons in Ha as [Hab _].
  destruct (_ >? _); lia.
Qed.

(** With every gap within the threshold there is one session. *)
Lemma sessions_one t ts :
  gaps_within threshold (t :: ts) -> sessions (t :: ts) = [t :: ts].
Proof.
  revert t. induction ts as [|u ts IH]; intros t H; [reflexivity|].
  rewrite sessions_cons. destruct H as [H1 H2]. rewrite (IH u H2).
  cbn [hd]. destruct (Z.gtb_spec (u - t) (30 * Minute)); [|reflexivity].
  unfold threshold in H1. lia.
Qed.

(** ** The loop of the period merger *)

Lemma period_loop_spec rest : forall prev start total,
  StronglySorted Z.le (prev :: rest) ->
  start <= prev -> 0 <= total ->
  total + (prev - start) + sum_spans (sessions (prev :: rest)) <= maxInt64 ->
  period_loop prev start prev total rest =
  total + (prev - start) + sum_spans (sessions (prev :: rest)).
Proof.
  induction rest as [|t rest IH]; intros prev start total Hs Hle Ht Hfit.
  - rewrite sum_spans_single in *. simpl.
    unfold add. rewrite Sub_exact by (go_consts; lia).
    rewrite wrap64_small by (go_consts; lia). lia.
  - inversion Hs as [|? ? Hs' Hall]; subst. inversion Hall as [|? ? Hpt _]; subst.
    pose proof (sum_spans_nonneg _ Hs') as Hnn.
    rewrite sum_spans_step in *. cbn [period_loop].
    rewrite Sub_threshold.
    destruct (Z.gtb_spec (t - prev) (30 * Minute)) as [Hg|Hg]; cbn [negb].
    + unfold add at 1. rewrite Sub_exact by (go_consts; lia).
      rewrite wrap64_small by (go_consts; lia).
      rewrite IH; [lia|assumption|lia|lia|lia].
    + rewrite IH; [lia|assumption|lia|lia|lia].
Qed.

Lemma total_of_spec ts :
  StronglySorted Z.le ts ->
  sum_spans (sessions ts) <= maxInt64 ->
  total_of ts = sum_spans (sessions ts).
Proof.
  intros Hs Hfit. destruct ts as [|t ts]; [reflexivity|].
  unfold total_of. rewrite period_loop_spec; [lia|assumption|lia|lia|lia].
Qed.

Lemma sorted_last_latest ts :
  StronglySorted Z.le ts -> Forall (fun t => t <= List.last ts 0) ts.
Proof.
  induction 1 as [|a l Hs IH Ha]; [constructor|].
  destruct l as [|b l]; [repeat constructor; simpl; lia|].
  change (List.last (a :: b :: l) 0) with (List.last (b :: l) 0).
  constructor; [|exact IH].
  apply Forall_cons in Ha as [Hab _]. apply Forall_cons in IH as [Hb _]. lia.
Qed.

Lemma last_In (a : Z) l : In (List.last (a :: l) 0) (a :: l).
Proof.
  revert a. induction l as [|b l IH]; intros a; [now left|].
  right. apply IH.
Qed.

Lemma sorted_extremes t ts hi lo :
  StronglySorted Z.le (t :: ts) ->
  latest hi (t :: ts) -> earliest lo (t :: ts) ->
  hi = List.last (t :: ts) 0 /\ lo = t.
Proof.
  intros Hs [Hhi Hmax] [Hlo Hmin].
  pose proof (sorted_last_latest _ Hs) as Hlast.
  rewrite Forall_forall in Hlast, Hmax, Hmin.
  apply StronglySorted_inv in Hs as [_ Hall]. rewrite Forall_forall in Hall.
  split.
  - pose proof (Hlast hi ltac:(now apply list_elem_of_In)).
    pose proof (Hmax _ ltac:(apply list_elem_of_In, last_In)). lia.
  - pose proof (Hmin t ltac:(now left)).
    destruct Hlo as [->|Hlo]; [reflexivity|].
    pose proof (Hall lo ltac:(now apply list_elem_of_In)). lia.
Qed.

Lemma dateTimes_of_sorted_perm cs s ts :
  Permutation ts (s :: map CommentCreatedAt cs) -> StronglySorted Z.le ts ->
  dateTimes_of cs s = ts.
Proof.
  intros Hp Hs. unfold dateTimes_of.
  apply (StronglySorted_unique Z.le); [apply sort_Slice_sorted|exact Hs|].
  now rewrite <- sort_Slice_perm, Hp.
Qed.

Lemma period_length_sessions cs s ts :
  cs <> [] ->
  Permutation ts (s :: map CommentCreatedAt cs) -> StronglySorted Z.le ts ->
  sum_spans (sessions ts) <= maxInt64 ->
  CalculateTotalCommentPeriodLength cs s =
  Z.max minDuration (sum_spans (sessions ts)).
Proof.
  intros Hne Hp Hs Hfit. destruct cs as [|c cs]; [congruence|].
  unfold CalculateTotalCommentPeriodLength.
  rewrite (dateTimes_of_sorted_perm _ _ _ Hp Hs), (total_of_spec _ Hs Hfit).
  destruct (Z.leb_spec (sum_spans (sessions ts)) minDuration); lia.
Qed.

(** ** The period merger: main results *)

(** C4: for a non-empty comment list, the result of the period merger is the
    sum of [sessionEnd - sessionStart] over the maximal sessions of the
    ascending time stamps (submission time and comment times), split exactly
    at the gaps above thirty minutes, and raised to the three-minute floor;
    the sum is taken to fit a [Duration].  When all neighbours are within
    thirty minutes the result is latest minus earliest raised to the floor;
    for two comments thirty-one minutes apart and a submission within thirty
    minutes after the second, it is the sum of the two sub-session spans and
    not the full span. *)
Theorem period_merger_sums_sessions (cs : list PullRequestComment) (s : Time)
    (ts : list Time) :
  cs <> [] ->
  Permutation ts (s :: map CommentCreatedAt cs) -> StronglySorted Z.le ts ->
  sum_spans (sessions ts) <= maxInt64 ->
  CalculateTotalCommentPeriodLength cs s
    = Z.max (3 * Minute) (sum_spans (sessions ts)) /\
  (gaps_within (30 * Minute) ts ->
   forall hi lo, latest hi ts -> earliest lo ts ->
     CalculateTotalCommentPeriodLength cs s = Z.max (3 * Minute) (hi - lo)) /\
  (forall c1 c2 s2,
     CommentCreatedAt c2 - CommentCreatedAt c1 = 31 * Minute ->
     0 <= s2 - CommentCreatedAt c2 <= 30 * Minute ->
     CalculateTotalCommentPeriodLength [c1; c2] s2
       = Z.max (3 * Minute)
           ((CommentCreatedAt c1 - CommentCreatedAt c1) + (s2 - CommentCreatedAt c2)) /\
     CalculateTotalCommentPeriodLength [c1; c2] s2 <> s2 - CommentCreatedAt c1).
Proof.
  intros Hne Hp Hs Hfit.
  change (3 * Minute) with minDuration. change (30 * Minute) with threshold.
  pose proof (period_length_sessions cs s ts Hne Hp Hs Hfit) as Hgen.
  split; [exact Hgen|]. split.
  - intros Hgaps hi lo Hhi Hlo. rewrite Hgen.
    destruct ts as [|t ts].
    { apply Permutation_nil in Hp. discriminate. }
    destruct (sorted_extremes t ts hi lo Hs Hhi Hlo) as [-> ->].
    rewrite (sessions_one _ _ Hgaps). unfold sum_spans, span. cbn [fold_right hd].
    f_equal. lia.
  - intros c1 c2 s2 H31 Hd.
    set (t1 := CommentCreatedAt c1) in *. set (t2 := CommentCreatedAt c2) in *.
    assert (Hsum : sum_spans (sessions [t1; t2; s2]) = (t1 - t1) + (s2 - t2)).
    { rewrite !sum_spans_step, sum_spans_single.
      destruct (Z.gtb_spec (t2 - t1) (30 * Minute));
        destruct (Z.gtb_spec (s2 - t2) (30 * Minute)); go_consts; lia. }
    assert (Hres : CalculateTotalCommentPeriodLength [c1; c2] s2
                   = Z.max minDuration (sum_spans (sessions [t1; t2; s2]))).
    { apply period_length_sessions.
      - discriminate.
      - cbn [map]. fold t1 t2.
        change [t1; t2; s2] with ([t1; t2] ++ [s2]).
        change [s2; t1; t2] with ([s2] ++ [t1; t2]).
        apply Permutation_app_comm.
      - repeat constructor; go_consts; lia.
      - rewrite Hsum. go_consts. lia. }
    rewrite Hres, Hsum. split; [reflexivity|]. go_consts. lia.
Qed.

Lemma period_merger_sums_sessions_witness :
  CalculateTotalCommentPeriodLength
    [comment_at (40 * Minute); comment_at 0; comment_at (10 * Minute)] (45 * Minute)
  = Z.max (3 * Minute)
      (sum_spans (sessions [0; 10 * Minute; 40 * Minute; 45 * Minute])).
Proof.
  refine (proj1 (period_merger_sums_sessions
    [comment_at (40 * Minute); comment_at 0; comment_at (10 * Minute)]
    (45 * Minute) [0; 10 * Minute; 40 * Minute; 45 * Minute] _ _ _ _)).
  - discriminate.
  - cbn [map comment_at CommentCreatedAt]. symmetry.
    apply (Permutation_cons_app [0; 10 * Minute; 40 * Minute] []).
    apply (Permutation_cons_app [0; 10 * Minute] []).
    apply Permutation_refl.
  - repeat constructor; vm_compute; discriminate.
  - vm_compute. discriminate.
Defined.

(** C5: the period merger never returns less than the three-minute floor;
    with no comment it returns exactly the floor, and when the computed
    total is below the floor it returns the floor. *)
Theorem period_merger_floor (cs : list PullRequestComment) (s : Time) :
  minDuration <= CalculateTotalCommentPeriodLength cs s /\
  CalculateTotalCommentPeriodLength [] s = minDuration /\
  (total_of (dateTimes_of cs s) < minDuration ->
   CalculateTotalCommentPeriodLength cs s = minDuration) /\
  minDuration = 3 * Minute.
Proof.
  unfold CalculateTotalCommentPeriodLength.
  destruct cs as [|c cs]; repeat split; try lia; try reflexivity.
  - destruct (Z.leb_spec (total_of (dateTimes_of (c :: cs) s)) minDuration); lia.
  - intros Hlt.
    destruct (Z.leb_spec (total_of (dateTimes_of (c :: cs) s)) minDuration); lia.
Qed.

Lemma period_merger_floor_witness :
  CalculateTotalCommentPeriodLength [comment_at (5 * Second)] (7 * Second)
  = minDuration.
Proof.
  apply (proj1 (proj2 (proj2
           (period_merger_floor [comment_at (5 * Second)] (7 * Second))))).
  vm_compute. reflexivity.
Defined.

(** C10: the result of the period merger does not depend on the order in
    which the comments are received. *)
Theorem period_merger_order_independent
    (cs1 cs2 : list PullRequestComment) (s : Time) :
  Permutation cs1 cs2 ->
  CalculateTotalCommentPeriodLength cs1 s = CalculateTotalCommentPeriodLength cs2 s.
Proof.
  intros Hp. unfold CalculateTotalCommentPeriodLength, dateTimes_of.
  destruct cs1 as [|c1 cs1], cs2 as [|c2 cs2].
  - reflexivity.
  - apply Permutation_nil in Hp. discriminate.
  - symmetry in Hp. apply Permutation_nil in Hp. discriminate.
  - rewrite (sort_Slice_perm_eq (s :: map CommentCreatedAt (c1 :: cs1))
                                (s :: map CommentCreatedAt (c2 :: cs2))).
    + reflexivity.
    + constructor. now apply Permutation_map.
Qed.

Lemma period_merger_order_independent_witness :
  CalculateTotalCommentPeriodLength
    [comment_at (40 * Minute); comment_at 0] (45 * Minute)
  = CalculateTotalCommentPeriodLength
    [comment_at 0; comment_at (40 * Minute)] (45 * Minute).
Proof.
  apply (period_merger_order_independent
           [comment_at (40 * Minute); comment_at 0]
           [comment_at 0; comment_at (40 * Minute)] (45 * Minute)).
  apply perm_swap.
Defined.

(** ** The window filter *)

Section WindowFilter.
Import Github WindowSpec.

Lemma take_while_firstn {A} (f : A -> bool) l :
  take_while f l = firstn (length (take_while f l)) l.
Proof.
  induction l as [|x l IH]; [reflexivity|].
  simpl. destruct (f x); simpl; [now rewrite <- IH|reflexivity].
Qed.

Lemma take_while_length {A} (f : A -> bool) l :
  (length (take_while f l) <= length l)%nat.
Proof.
  induction l as [|x l IH]; simpl; [lia|]. destruct (f x); simpl; lia.
Qed.

Lemma take_while_Forall {A} (f : A -> bool) l :
  Forall (fun x => f x = true) (take_while f l).
Proof.
  induction l as [|x l IH]; simpl; [constructor|].
  destruct (f x) eqn:E; now constructor.
Qed.

(** The first element after the prefix fails the test. *)
Lemma take_while_stop {A} (f : A -> bool) l :
  (length (take_while f l) < length l)%nat ->
  exists x, nth_error l (length (take_while f l)) = Some x /\ f x = false.
Proof.
  induction l as [|x l IH]; simpl; [lia|].
  destruct (f x) eqn:E; simpl; intros H.
  - apply IH. lia.
  - eauto.
Qed.

(** On a list along which [f] can only turn from true to false, the
    prefix holds every element that passes. *)
Lemma take_while_filter {A} (R : A -> A -> Prop) (f : A -> bool) l :
  (forall a b, R a b -> f b = true -> f a = true) ->
  StronglySorted R l ->
  take_while f l = List.filter f l /\
  skipn (length (take_while f l)) l = List.filter (fun x => negb (f x)) l.
Proof.
  intros Hmono. induction 1 as [|x l Hs [IH1 IH2] Hx]; [split; reflexivity|].
  simpl. destruct (f x) eqn:E; simpl.
  - now rewrite IH2, IH1.
  - assert (Hnone : Forall (fun y => f y = false) l).
    { eapply Forall_impl; [exact Hx|]. intros y Hxy. simpl.
      destruct (f y) eqn:Ey; [|reflexivity].
      rewrite (Hmono x y Hxy Ey) in E. discriminate. }
    clear - Hnone. split.
    + induction Hnone as [|y l Hy _ IH]; simpl; [reflexivity|]. now rewrite Hy.
    + f_equal. induction Hnone as [|y l Hy _ IH]; simpl; [reflexivity|].
      rewrite Hy. simpl. now f_equal.
Qed.

Lemma filter_loop_spec dateFrom dateTo prs : forall i st,
  0 <= i -> foundBeforeDateFrom st = false ->
  let p := scanned dateFrom prs in
  let k := length (take_while (newer dateTo) p) in
  filter_loop dateFrom dateTo i prs st =
  {| startIndex :=
       if startIndex st =? -1
       then (if (k <? length p)%nat then i + Z.of_nat k else -1)
       else startIndex st;
     endIndex :=
       if (length p =? 0)%nat then endIndex st else i + Z.of_nat (length p) - 1;
     found := found st || (k <? length p)%nat;
     foundBeforeDateFrom := (length p <? length prs)%nat |}.
Proof.
  unfold scanned.
  induction prs as [|pr rest IH]; intros i st Hi Hfb; cbn zeta.
  - simpl. destruct st as [s e f b]; simpl in *. subst b.
    rewrite orb_false_r. now destruct (Z.eqb_spec s (-1)) as [->|].
  - cbn [filter_loop take_while]. unfold Before.
    change (GhCreatedAt pr <? dateFrom) with (older dateFrom pr).
    destruct (older dateFrom pr) eqn:Eold; cbn [negb].
    + simpl. rewrite orb_false_r. destruct st as [s e f b]; simpl.
      now destruct (Z.eqb_spec s (-1)) as [->|].
    + unfold After. cbn [take_while].
      change (dateTo <? GhCreatedAt pr) with (newer dateTo pr).
      destruct (newer dateTo pr) eqn:Enew.
      * rewrite IH by (simpl; lia || assumption). cbn [length].
        cbn [startIndex endIndex found foundBeforeDateFrom].
        set (p := take_while _ rest).
        set (k := length (take_while (newer dateTo) p)).
        f_equal.
        -- destruct (startIndex st =? -1); [|reflexivity].
           change (S k <? S (length p))%nat with (k <? length p)%nat.
           destruct (k <? length p)%nat; lia.
        -- change (S (length p) =? 0)%nat with false.
           destruct (Nat.eqb_spec (length p) 0); lia.
      * rewrite IH by (simpl; lia || assumption). cbn [length].
        cbn [startIndex endIndex found foundBeforeDateFrom].
        set (p := take_while _ rest).
        f_equal.
        -- change (0 <? S (length p))%nat with true. cbn iota.
           destruct (Z.eqb_spec (startIndex st) (-1)) as [E|E].
           ++ destruct (Z.eqb_spec i (-1)); lia.
           ++ destruct (Z.eqb_spec (startIndex st) (-1)); [lia|reflexivity].
        -- change (S (length p) =? 0)%nat with false.
           destruct (Nat.eqb_spec (length p) 0); lia.
        -- now rewrite orb_true_r.
Qed.

(** What the filter returns on any page, sorted or not: of the scanned
    prefix, what follows its leading pull requests newer than [dateTo]. *)
Lemma filterPullRequests_scan prs dateFrom dateTo :
  let p := scanned dateFrom prs in
  let k := length (take_while (newer dateTo) p) in
  filterPullRequests prs dateFrom dateTo =
  Done (skipn k p, (k <? length p)%nat, (length p <? length prs)%nat).
Proof.
  cbn zeta. destruct prs as [|pr rest]; [reflexivity|].
  unfold filterPullRequests.
  rewrite filter_loop_spec by (reflexivity || lia).
  set (prs := pr :: rest). set (p := scanned dateFrom prs).
  set (k := length (take_while (newer dateTo) p)).
  cbn [found startIndex endIndex foundBeforeDateFrom orb].
  assert (Hk : (k <= length p)%nat) by apply take_while_length.
  assert (Hp : (length p <= length prs)%nat) by apply take_while_length.
  destruct (Nat.ltb_spec k (length p)) as [Hlt|Hge]; cbn [negb].
  - change (-1 =? -1) with true. cbn iota.
    destruct (Nat.eqb_spec (length p) 0) as [E|_]; [lia|].
    unfold slice.
    replace ((0 <=? 0 + Z.of_nat k)
             && (0 + Z.of_nat k <=? 0 + Z.of_nat (length p) - 1 + 1)
             && (0 + Z.of_nat (length p) - 1 + 1 <=? Z.of_nat (length prs)))
      with true
      by (symmetry; rewrite !andb_true_iff, !Z.leb_le; lia).
    cbn [exec_bind]. do 3 f_equal.
    replace (Z.to_nat (0 + Z.of_nat (length p) - 1 + 1 - (0 + Z.of_nat k)))
      with (length p - k)%nat by lia.
    replace (Z.to_nat (0 + Z.of_nat k)) with k by lia.
    rewrite <- skipn_firstn_comm. f_equal.
    symmetry. apply take_while_firstn.
  - replace k with (length p) by lia. now rewrite skipn_all.
Qed.

Lemma filter_filter_andb {A} (f g : A -> bool) l :
  List.filter g (List.filter f l) = List.filter (fun x => f x && g x) l.
Proof.
  induction l as [|x l IH]; [reflexivity|].
  simpl. destruct (f x); simpl; [destruct (g x)|]; now rewrite IH.
Qed.

Lemma filter_none {A} (f : A -> bool) l :
  Forall (fun x => f x = false) l -> List.filter f l = [].
Proof.
  induction 1 as [|x l Hx _ IH]; [reflexivity|]. simpl. now rewrite Hx.
Qed.

Lemma Forall_List_filter {A} (f : A -> bool) l :
  Forall (fun x => f x = true) (List.filter f l).
Proof.
  induction l as [|x l IH]; simpl; [constructor|].
  destruct (f x) eqn:E; [now constructor|exact IH].
Qed.

(** The stop signal of the scan, on any page. *)
Lemma scanned_stops dateFrom prs :
  (length (scanned dateFrom prs) <? length prs)%nat = true <->
  Exists (fun pr => GhCreatedAt pr < dateFrom) prs.
Proof.
  unfold scanned. rewrite Nat.ltb_lt. split.
  - intros H. apply take_while_stop in H as (x & Hx & Hf).
    apply Exists_exists. exists x. split.
    + apply list_elem_of_In. eapply nth_error_In, Hx.
    + unfold older in Hf. apply negb_false_iff, Z.ltb_lt in Hf. exact Hf.
  - intros H.
    pose proof (take_while_length (fun pr => negb (older dateFrom pr)) prs) as Hle.
    destruct (Nat.eq_dec (length (take_while (fun pr => negb (older dateFrom pr)) prs))
                         (length prs)) as [E|E]; [exfalso|lia].
    pose proof (take_while_Forall (fun pr => negb (older dateFrom pr)) prs) as Hall.
    rewrite take_while_firstn, E, firstn_all in Hall.
    apply Exists_exists in H as (x & Hin & Hx).
    rewrite Forall_forall in Hall. specialize (Hall x Hin).
    unfold older in Hall. apply negb_true_iff, Z.ltb_ge in Hall. lia.
Qed.

Lemma descending_strongly prs :
  descending prs ->
  StronglySorted (fun a b => GhCreatedAt b <= GhCreatedAt a) prs.
Proof.
  apply Sorted.Sorted_StronglySorted. intros a b c Hab Hbc. lia.
Qed.

(** On a descending page the scan meets the pull requests newer than
    [dateTo], then those in the window, then the older ones. *)
Lemma descending_split prs dateFrom dateTo :
  descending prs ->
  let p := scanned dateFrom prs in
  let k := length (take_while (newer dateTo) p) in
  skipn k p = List.filter (in_window dateFrom dateTo) prs /\
  prs = take_while (newer dateTo) p ++ skipn k p
        ++ List.filter (older dateFrom) prs.
Proof.
  intros Hd. cbn zeta. apply descending_strongly in Hd.
  set (R := fun a b => GhCreatedAt b <= GhCreatedAt a) in Hd.
  destruct (take_while_filter R (fun pr => negb (older dateFrom pr)) prs)
    as [Hp Hq]; [|exact Hd|].
  { unfold R, older. intros a b Hab Hb.
    apply negb_true_iff, Z.ltb_ge in Hb. apply negb_true_iff, Z.ltb_ge. lia. }
  fold (scanned dateFrom prs) in Hp, Hq. set (p := scanned dateFrom prs) in *.
  assert (Hsplit : prs = p ++ skipn (length p) prs).
  { unfold p at 1, scanned. rewrite take_while_firstn. fold (scanned dateFrom prs).
    fold p. symmetry. apply firstn_skipn. }
  assert (Hps : StronglySorted R p).
  { rewrite Hsplit in Hd. eapply StronglySorted_app_1_l, Hd. }
  destruct (take_while_filter R (newer dateTo) p) as [Hn Hw]; [|exact Hps|].
  { unfold R, newer. intros a b Hab Hb.
    apply Z.ltb_lt in Hb. apply Z.ltb_lt. lia. }
  split.
  - rewrite Hw, Hp, filter_filter_andb. apply filter_ext. intros pr.
    unfold older, newer, in_window.
    now rewrite <- !Z.leb_antisym.
  - rewrite app_assoc.
    rewrite <- (firstn_skipn (length (take_while (newer dateTo) p)) p) in Hsplit at 1.
    rewrite <- take_while_firstn in Hsplit.
    rewrite Hsplit at 1. f_equal. rewrite Hq. apply filter_ext.
    intros pr. apply negb_involutive.
Qed.

(** C3: on a page sorted by creation time, latest first, the window filter
    returns exactly the pull requests with [dateFrom <= createdAt <=
    dateTo], which lie next to one another after those newer than
    [dateTo] and before those older than [dateFrom]; the stop signal is
    set iff some pull request of the page was created strictly before
    [dateFrom]; an empty page gives no match and no stop signal; so does,
    for [dateFrom <= dateTo], a page entirely newer than [dateTo]; a page
    entirely older than [dateFrom] gives the stop signal and no match. *)
Theorem window_filter_exact prs dateFrom dateTo :
  descending prs ->
  exists res found stop,
    filterPullRequests prs dateFrom dateTo = Done (res, found, stop) /\
    res = List.filter (in_window dateFrom dateTo) prs /\
    (exists pre post,
        prs = pre ++ res ++ post /\
        Forall (fun pr => dateTo < GhCreatedAt pr) pre /\
        Forall (fun pr => GhCreatedAt pr < dateFrom) post) /\
    (found = true <-> res <> []) /\
    (stop = true <-> Exists (fun pr => GhCreatedAt pr < dateFrom) prs) /\
    (prs = [] -> res = [] /\ found = false /\ stop = false) /\
    (dateFrom <= dateTo ->
     Forall (fun pr => dateTo < GhCreatedAt pr) prs ->
     res = [] /\ found = false /\ stop = false) /\
    (prs <> [] ->
     Forall (fun pr => GhCreatedAt pr < dateFrom) prs ->
     res = [] /\ found = false /\ stop = true).
Proof.
  intros Hd.
  destruct (descending_split prs dateFrom dateTo Hd) as [Hres Hsplit].
  pose proof (filterPullRequests_scan prs dateFrom dateTo) as Hrun.
  cbn zeta in *.
  set (p := scanned dateFrom prs) in *.
  set (k := length (take_while (newer dateTo) p)) in *.
  assert (Hfound : (k <? length p)%nat = true <-> skipn k p <> []).
  { rewrite Nat.ltb_lt. split.
    - intros Hlt E. apply (f_equal (@length _)) in E.
      rewrite length_skipn in E. simpl in E. lia.
    - intros Hne. destruct (Nat.lt_ge_cases k (length p)) as [|Hge]; [assumption|].
      exfalso. apply Hne. now apply skipn_all2. }
  pose proof (scanned_stops dateFrom prs) as Hstop. fold p in Hstop.
  exists (skipn k p), (k <? length p)%nat, (length p <? length prs)%nat.
  assert (Hnone : forall found,
             (found = true <-> skipn k p <> []) ->
             skipn k p = [] -> found = false).
  { intros [|] Hiff E; [|reflexivity]. exfalso. now apply Hiff. }
  assert (Hnostop : forall stop,
             (stop = true <-> Exists (fun pr => GhCreatedAt pr < dateFrom) prs) ->
             ~ Exists (fun pr => GhCreatedAt pr < dateFrom) prs -> stop = false).
  { intros [|] Hiff Hn; [|reflexivity]. exfalso. now apply Hn, Hiff. }
  assert (Hnewer : Forall (fun pr => dateTo < GhCreatedAt pr) prs ->
                   skipn k p = []).
  { intros Hall. rewrite Hres. apply filter_none.
    eapply Forall_impl; [exact Hall|]. intros pr Hpr. unfold in_window.
    apply andb_false_iff. right. apply Z.leb_gt. exact Hpr. }
  assert (Holder : Forall (fun pr => GhCreatedAt pr < dateFrom) prs ->
                   skipn k p = []).
  { intros Hall. rewrite Hres. apply filter_none.
    eapply Forall_impl; [exact Hall|]. intros pr Hpr. unfold in_window.
    apply andb_false_iff. left. apply Z.leb_gt. exact Hpr. }
  refine (conj Hrun (conj Hres (conj _ (conj Hfound (conj Hstop
           (conj _ (conj _ _))))))).
  - exists (take_while (newer dateTo) p), (List.filter (older dateFrom) prs).
    split; [exact Hsplit|]. split.
    + eapply Forall_impl; [apply take_while_Forall|].
      intros pr H. now apply Z.ltb_lt in H.
    + eapply Forall_impl; [apply Forall_List_filter|].
      intros pr H. now apply Z.ltb_lt in H.
  - intros E. subst p k. rewrite E. repeat split; reflexivity.
  - intros Hft Hall. split; [now apply Hnewer|]. split.
    + apply Hnone; [exact Hfound|now apply Hnewer].
    + apply Hnostop; [exact Hstop|]. rewrite Exists_exists.
      intros (pr & Hin & Hpr). rewrite Forall_forall in Hall.
      specialize (Hall pr Hin). lia.
  - intros Hne Hall. split; [now apply Holder|]. split.
    + apply Hnone; [exact Hfound|now apply Holder].
    + apply Hstop. destruct prs as [|pr rest]; [congruence|].
      apply Forall_cons in Hall as [Hpr _]. now apply Exists_cons_hd.
Qed.

Lemma window_filter_exact_witness :
  exists res found stop,
    filterPullRequests page (10 * Hour) (20 * Hour) = Done (res, found, stop) /\
    res = List.filter (in_window (10 * Hour) (20 * Hour)) page.
Proof.
  destruct (window_filter_exact page (10 * Hour) (20 * Hour))
    as (res & found & stop & Hrun & Hres & _).
  - repeat constructor; vm_compute; discriminate.
  - exists res, found, stop. split; assumption.
Defined.

Example window_filter_page :
  filterPullRequests page (10 * Hour) (20 * Hour)
  = Done ([gh_pr 4 "b" (20 * Hour); gh_pr 3 "c" (15 * Hour); gh_pr 2 "d" (10 * Hour)],
          true, true).
Proof. reflexivity. Qed.

(** [TestFilterPullRequests]: both pull requests, found, no stop signal. *)
Example window_filter_test_page :
  filterPullRequests test_page (97 * Hour) (99 * Hour + 30 * Minute)
  = Done (test_page, true, false).
Proof. reflexivity. Qed.

End WindowFilter.

(** ** The aggregator *)

Section Aggregator.

Context {St : Type} (client : GitClient St) (owner repo : string).

Lemma user_step_other pr rc cs cm metrics entry metrics' :
  user_step pr rc cs cm metrics entry = Done metrics' ->
  metrics' !! PRUserLogin pr = metrics !! PRUserLogin pr.
Proof.
  destruct entry as [user reviews]. unfold user_step.
  destruct (String.eqb_spec user (PRUserLogin pr)) as [E|E]; cbn [negb].
  - now intros [= <-].
  - destruct (reviews_loop _ _ _ _ _ _) as [um|]; cbn [exec_bind]; [|discriminate].
    intros [= <-]. now apply lookup_insert_ne.
Qed.

Lemma users_loop_other pr rc cs cm entries : forall metrics metrics',
  users_loop pr rc cs cm metrics entries = Done metrics' ->
  metrics' !! PRUserLogin pr = metrics !! PRUserLogin pr.
Proof.
  induction entries as [|entry rest IH]; intros metrics metrics'; cbn [users_loop].
  - now intros [= <-].
  - destruct (user_step pr rc cs cm metrics entry) as [m1|] eqn:E;
      cbn [exec_bind]; [|discriminate].
    intros H. rewrite (IH _ _ H). eapply user_step_other, E.
Qed.

Lemma pr_step_other st metrics pr st' metrics' :
  pr_step client owner repo st metrics pr = Done (st', Next metrics') ->
  metrics' !! PRUserLogin pr = metrics !! PRUserLogin pr.
Proof.
  unfold pr_step.
  destruct (GetReviews client st owner repo (Number pr)) as [st1 [rs [e|]]];
    [discriminate|].
  destruct (getUserReviews rs) as [ur|]; cbn [exec_bind]; [|discriminate].
  destruct (GetComments client st1 owner repo (Number pr)) as [st2 [cs [e|]]];
    [discriminate|].
  destruct (match cs with [] => _ | first :: _ => _ end) as [st3 [cm errs]].
  destruct (0 <? Z.of_nat (length errs)); [discriminate|].
  destruct (users_loop _ _ _ _ _ _) as [m1|] eqn:E; cbn [exec_bind]; [|discriminate].
  intros [= <- <-]. eapply users_loop_other, E.
Qed.

Lemma prs_loop_other login prs : forall st metrics st' metrics',
  Forall (fun pr => PRUserLogin pr = login) prs ->
  prs_loop client owner repo st metrics prs = Done (st', Next metrics') ->
  metrics' !! login = metrics !! login.
Proof.
  induction prs as [|pr rest IH]; intros st metrics st' metrics' Hall;
    cbn [prs_loop].
  - now intros [= <- <-].
  - apply Forall_cons in Hall as [Hpr Hrest].
    destruct (pr_step client owner repo st metrics pr) as [[st1 [m1|errs]]|] eqn:E;
      cbn [exec_bind]; [|discriminate|discriminate].
    intros H. rewrite (IH _ _ _ _ Hrest H). subst login.
    eapply pr_step_other, E.
Qed.

Lemma pr_step_errors st metrics pr st' errs :
  pr_step client owner repo st metrics pr = Done (st', Return errs) -> errs <> [].
Proof.
  unfold pr_step.
  destruct (GetReviews client st owner repo (Number pr)) as [st1 [rs [e|]]].
  { now intros [= <- <-]. }
  destruct (getUserReviews rs) as [ur|]; cbn [exec_bind]; [|discriminate].
  destruct (GetComments client st1 owner repo (Number pr)) as [st2 [cs [e|]]].
  { now intros [= <- <-]. }
  destruct (match cs with [] => _ | first :: _ => _ end) as [st3 [cm errs']].
  destruct (Z.ltb_spec 0 (Z.of_nat (length errs'))) as [Hlen|Hlen].
  - intros [= <- <-]. destruct errs'; [simpl in Hlen; lia|discriminate].
  - destruct (users_loop _ _ _ _ _ _); cbn [exec_bind]; discriminate.
Qed.

Lemma prs_loop_errors prs : forall st metrics st' errs,
  prs_loop client owner repo st metrics prs = Done (st', Return errs) -> errs <> [].
Proof.
  induction prs as [|pr rest IH]; intros st metrics st' errs; cbn [prs_loop].
  - discriminate.
  - destruct (pr_step client owner repo st metrics pr) as [[st1 [m1|errs1]]|] eqn:E;
      cbn [exec_bind]; [|intros [= <- <-]|discriminate].
    + apply IH.
    + eapply pr_step_errors, E.
Qed.

Lemma prs_loop_app before : forall st metrics st1 metrics1 rest,
  prs_loop client owner repo st metrics before = Done (st1, Next metrics1) ->
  prs_loop client owner repo st metrics (before ++ rest) =
  prs_loop client owner repo st1 metrics1 rest.
Proof.
  induction before as [|pr before IH]; intros st metrics st1 metrics1 rest;
    cbn [prs_loop app].
  - now intros [= <- <-].
  - destruct (pr_step client owner repo st metrics pr) as [[st2 [m2|errs2]]|];
      cbn [exec_bind]; [|discriminate|discriminate].
    apply IH.
Qed.

End Aggregator.

(** C7: an error of the data source in the fetch of the pull requests, of
    the reviews, of the comments or of the commits ends the run: the
    aggregator returns the nil map with the errors, right after the failed
    call; whenever it returns errors the map is nil. *)
Theorem fetch_error_aborts_run {St : Type} (client : GitClient St)
    (owner repo : string) (st : St) (dateFrom dateTo : Time) :
  (forall st' m errs,
     CalculateMetrics client owner repo st dateFrom dateTo = Done (st', (m, errs)) ->
     errs <> [] -> m = None) /\
  (forall st1 prs e,
     GetPullRequests client st owner repo dateFrom dateTo = (st1, (prs, Some e)) ->
     CalculateMetrics client owner repo st dateFrom dateTo
       = Done (st1, (None, [e]))) /\
  (forall st1 before pr rest st2 metrics st3 errs,
     GetPullRequests client st owner repo dateFrom dateTo
       = (st1, (before ++ pr :: rest, None)) ->
     prs_loop client owner repo st1 ∅ before = Done (st2, Next metrics) ->
     pr_step client owner repo st2 metrics pr = Done (st3, Return errs) ->
     CalculateMetrics client owner repo st dateFrom dateTo
       = Done (st3, (None, errs)) /\ errs <> []) /\
  (forall s metrics pr s1 rs e,
     GetReviews client s owner repo (Number pr) = (s1, (rs, Some e)) ->
     pr_step client owner repo s metrics pr = Done (s1, Return [e])) /\
  (forall s metrics pr s1 rs ur s2 cs e,
     GetReviews client s owner repo (Number pr) = (s1, (rs, None)) ->
     getUserReviews rs = Done ur ->
     GetComments client s1 owner repo (Number pr) = (s2, (cs, Some e)) ->
     pr_step client owner repo s metrics pr = Done (s2, Return [e])) /\
  (forall s metrics pr s1 rs ur s2 c cs s3 commits errs,
     GetReviews client s owner repo (Number pr) = (s1, (rs, None)) ->
     getUserReviews rs = Done ur ->
     GetComments client s1 owner repo (Number pr) = (s2, (c :: cs, None)) ->
     GetCommits client s2 owner repo (Number pr) (CommentCreatedAt c) true
       = (s3, (commits, errs)) ->
     errs <> [] ->
     pr_step client owner repo s metrics pr = Done (s3, Return errs)).
Proof.
  repeat apply conj.
  - intros st' m errs. unfold CalculateMetrics.
    destruct (GetPullRequests client st owner repo dateFrom dateTo)
      as [st1 [prs [e|]]].
    { now intros [= <- <- <-]. }
    destruct (prs_loop client owner repo st1 ∅ prs) as [[st2 [m2|errs2]]|];
      cbn [exec_bind]; [| |discriminate].
    + intros [= <- <- <-] Hne. now contradiction Hne.
    + now intros [= <- <- <-].
  - intros st1 prs e H. unfold CalculateMetrics. now rewrite H.
  - intros st1 before pr rest st2 metrics st3 errs Hprs Hbefore Hstep.
    split; [|eapply pr_step_errors, Hstep].
    unfold CalculateMetrics. rewrite Hprs.
    rewrite (prs_loop_app client owner repo _ _ _ _ _ _ Hbefore).
    cbn [prs_loop]. now rewrite Hstep.
  - intros s metrics pr s1 rs e H. unfold pr_step. now rewrite H.
  - intros s metrics pr s1 rs ur s2 cs e H1 H2 H3. unfold pr_step.
    rewrite H1, H2. cbn [exec_bind]. now rewrite H3.
  - intros s metrics pr s1 rs ur s2 c cs s3 commits errs H1 H2 H3 H4 Hne.
    unfold pr_step. rewrite H1, H2. cbn [exec_bind]. rewrite H3, H4.
    destruct errs as [|e errs]; [congruence|]. reflexivity.
Qed.

Lemma fetch_error_aborts_run_witness :
  CalculateMetrics
    (mock ([], Some (ApiError "failed to fetch PRs")) ([], None) ([], None) ([], []))
    "owner" "repo" 0%nat 0 (168 * Hour)
  = Done (1%nat, (None, [ApiError "failed to fetch PRs"])).
Proof.
  apply (proj1 (proj2 (fetch_error_aborts_run
           (mock ([], Some (ApiError "failed to fetch PRs")) ([], None) ([], None) ([], []))
           "owner" "repo" 0%nat 0 (168 * Hour))) 1%nat []).
  reflexivity.
Defined.

(** C8: processing a pull request leaves the metrics of its author as they
    were, whatever reviews were fetched for it; when every pull request of
    the run is by the same author, the final map has no entry for them. *)
Theorem author_never_counted {St : Type} (client : GitClient St)
    (owner repo : string) :
  (forall st metrics pr st' metrics',
     pr_step client owner repo st metrics pr = Done (st', Next metrics') ->
     metrics' !! PRUserLogin pr = metrics !! PRUserLogin pr) /\
  (forall st dateFrom dateTo login st1 prs,
     GetPullRequests client st owner repo dateFrom dateTo = (st1, (prs, None)) ->
     Forall (fun pr => PRUserLogin pr = login) prs ->
     metrics_for (CalculateMetrics client owner repo st dateFrom dateTo) login = None).
Proof.
  split.
  - apply pr_step_other.
  - intros st dateFrom dateTo login st1 prs Hprs Hall.
    unfold CalculateMetrics. rewrite Hprs.
    destruct (prs_loop client owner repo st1 ∅ prs) as [[st2 [m2|errs2]]|] eqn:E;
      cbn [exec_bind metrics_for]; [|reflexivity|reflexivity].
    rewrite lookup_fmap, (prs_loop_other client owner repo login _ _ _ _ _ Hall E).
    now rewrite lookup_empty.
Qed.

Lemma author_never_counted_witness :
  metrics_for (CalculateMetrics self_review "owner" "repo" 0%nat 0 (168 * Hour))
    "contributor1" = None.
Proof.
  apply (proj2 (author_never_counted self_review "owner" "repo")
           0%nat 0 (168 * Hour) "contributor1" 1%nat [pr1]).
  - reflexivity.
  - repeat constructor.
Defined.

(** In the run with a review by the author both reviews are fetched, and
    the other reviewer is counted. *)
Example self_review_counts_reviewer :
  PRsReviewed <$>
    metrics_for (CalculateMetrics self_review "owner" "repo" 0%nat 0 (168 * Hour))
      "reviewer1" = Some 1.
Proof. vm_compute. reflexivity. Qed.

(** ** The rate check *)

Section RateLimit.
Import Github.

(** A request that was answered is counted, and the remaining quota is
    taken over from the response. *)
Lemma verifyRateLimit_answered now g resp :
  exists e, verifyRateLimit now g (Some resp) = Done (counted g resp, e).
Proof.
  unfold verifyRateLimit, counted. destruct (_ =? 0); eauto.
Qed.

(** With no quota left the check itself reports the wait until the reset. *)
Lemma verifyRateLimit_exhausted now g resp :
  Remaining (RespRate resp) = 0 ->
  verifyRateLimit now g (Some resp)
  = Done (counted g resp,
          Some (RateLimitReached (Sub (Reset (RespRate resp)) now))).
Proof.
  intros H. unfold verifyRateLimit, counted.
  destruct (Z.eqb_spec (Remaining (RespRate resp)) 0); [reflexivity|contradiction].
Qed.

(** C1, on the code: the request that uses up the quota is answered with
    one page, the last one, and a response that reports nothing remaining.
    The rate check on it does fail, with the wait until the reset, yet
    [GetPullRequests] returns the pull requests and no error.  And when the
    clock has reached the reset by the time the first of two pages is
    checked, the second page is requested as well. *)
Theorem rate_limit_error_not_surfaced :
  verifyRateLimit (49 * Hour) fresh_client (snd (fst (last_call_api 0)))
    = Done ({| apiRateUsed := 2; apiRateRemaining := 0 |},
            Some (RateLimitReached (1 * Hour))) /\
  GetPullRequests 5 (49 * Hour) last_call_api fresh_client (10 * Hour) (20 * Hour)
    = Some (Done ({| apiRateUsed := 2; apiRateRemaining := 0 |},
                  ([{| Number := 2; PRUserLogin := "contributor1";
                       PRCreatedAt := 15 * Hour |}], None))) /\
  GetPullRequests 5 (50 * Hour) exhausted_api fresh_client (10 * Hour) (20 * Hour)
    = Some (Done ({| apiRateUsed := 3; apiRateRemaining := 4999 |},
                  ([{| Number := 2; PRUserLogin := "contributor1";
                       PRCreatedAt := 15 * Hour |};
                    {| Number := 1; PRUserLogin := "contributor2";
                       PRCreatedAt := 12 * Hour |}], None))).
Proof. repeat split; reflexivity. Qed.

End RateLimit.

(** ** The change-attribution matcher *)

(** A file whose name is held in another cell than the path of the comment
    is passed over, whatever the two texts are. *)
Lemma matcher_compares_cells comment commit :
  Forall (fun file => ptr_eqb (Filename file) (Path comment) = false)
         (Files commit) ->
  isCommentAddressedByCommit comment commit = Done false.
Proof.
  unfold isCommentAddressedByCommit.
  induction 1 as [|file files Hf _ IH]; cbn [files_loop]; [reflexivity|].
  now rewrite Hf.
Qed.

(** C6, on the code: a comment on [file.go] at original position 10 and a
    later commit with a file [file.go] whose patch has the header
    [@@ -10,7 +10,9 @@] do not match, the two names being held in two
    cells; they match when the commit holds the very cell of the comment. *)
Theorem matcher_misses_equal_names :
  ref_val <$> Path file_go_comment = Some "file.go" /\
  map (fun f => ref_val <$> Filename f) (Files file_go_commit) = [Some "file.go"] /\
  After (CommitCreatedAt file_go_commit) (CommentCreatedAt file_go_comment) = true /\
  isCommentAddressedByCommit file_go_comment file_go_commit = Done false /\
  isCommentAddressedByCommit file_go_comment file_go_commit_shared = Done true.
Proof. repeat split; reflexivity. Qed.

(** In the counting loop a commit that is not strictly later than the
    comment is never asked about. *)
Lemma commits_loop_not_later comment commit rest :
  After (CommitCreatedAt commit) (CommentCreatedAt comment) = false ->
  commits_loop comment (commit :: rest) = commits_loop comment rest.
Proof. intros H. cbn [commits_loop]. now rewrite H. Qed.

(** ** Grouping *)

(** C9, on the code: the data source turns a review without [SubmittedAt]
    into a nil entry; grouping stops the program on it, and so does the
    run of the aggregator that fetched it. *)
Theorem grouping_panics_on_pending_review :
  Github.GetReviews (49 * Hour) fresh_client (listed_reviews, Some quota_left, None)
    = Done ({| Github.apiRateUsed := 2; Github.apiRateRemaining := 4999 |},
            ([review_by 1 11 "reviewer1" (168 * Hour); None], None)) /\
  getUserReviews [review_by 1 11 "reviewer1" (168 * Hour); None] = Panic /\
  CalculateMetrics
    (mock ([pr1], None)
          ([review_by 1 11 "reviewer1" (168 * Hour); None], None)
          ([], None) ([], []))
    "owner" "repo" 0%nat 0 (168 * Hour) = Panic.
Proof. repeat split; reflexivity. Qed.

(** Without nil entries grouping does not fail. *)
Lemma getUserReviews_no_nil reviews : forall result,
  Forall (fun r => r <> None) reviews ->
  exists groups, getUserReviews_loop reviews result = Done groups.
Proof.
  induction reviews as [|r reviews IH]; intros result Hall; cbn [getUserReviews_loop].
  - eauto.
  - apply Forall_cons in Hall as [Hr Hall].
    destruct r as [review|]; [|congruence].
    destruct (SubmittedAt review); now apply IH.
Qed.

(** ** The final pass *)

(** C2, on the code: with one comment and a change count of one the final
    pass leaves 0.01, not 100; in the run of one pull request with one
    review, one comment and one later commit at the commented line the
    reviewer ends with 0.01 when the commit holds the cell of the comment's
    path, and with NaN when, as after decoding, it holds a cell of its own. *)
Theorem final_percentage_not_ratio :
  PercentageCommentsLeadingToChanges (finalize one_of_one)
    = 0x1.47ae147ae147bp-7%float /\
  PercentageCommentsLeadingToChanges <$>
    metrics_for (CalculateMetrics (end_to_end file_go_commit_shared)
                   "owner" "repo" 0%nat 0 (168 * Hour)) "reviewer1"
    = Some 0x1.47ae147ae147bp-7%float /\
  PercentageCommentsLeadingToChanges <$>
    metrics_for (CalculateMetrics (end_to_end file_go_commit)
                   "owner" "repo" 0%nat 0 (168 * Hour)) "reviewer1"
    = Some nan /\
  PrimFloat.eqb 0x1.47ae147ae147bp-7 100 = false.
Proof. repeat split; vm_compute; reflexivity. Qed.

(** The other figures of that run are as the scenario has them. *)
Example end_to_end_counts :
  (fun m => (PRsReviewed m, TotalComments m, AverageTimeToFirstReview m)) <$>
    metrics_for (CalculateMetrics (end_to_end file_go_commit)
                   "owner" "repo" 0%nat 0 (168 * Hour)) "reviewer1"
  = Some (1, 1, 168 * Hour - 0).
Proof. vm_compute. reflexivity. Qed.

(** * Further properties of the code *)

(** ** Grouping of comments and reviews *)

Lemma comments_at_step (result : gmap Z (gmap Z (list PullRequestComment)))
    (c : PullRequestComment) (r u : Z) :
  comments_at (getReviewComments_loop [c] result) r u
  = comments_at result r u ++ comments_of r u [c].
Proof.
  unfold comments_of. cbn [getReviewComments_loop List.filter].
  set (r0 := PullRequestReviewID c). set (u0 := CommentUserID c).
  set (result1 := match result !! r0 with
                  | None => <[r0:=∅]> result
                  | Some _ => result
                  end).
  assert (Hinner : default ∅ (result1 !! r0) = default ∅ (result !! r0)).
  { unfold result1. destruct (result !! r0) as [i|] eqn:E.
    - now rewrite E.
    - now rewrite lookup_insert_eq. }
  assert (Hother : forall r', r' <> r0 -> result1 !! r' = result !! r').
  { intros r' Hne. unfold result1. destruct (result !! r0); [reflexivity|].
    now rewrite lookup_insert_ne. }
  unfold comments_at, slice_at.
  destruct (Z.eqb_spec r0 r) as [<-|Hr]; cbn [andb].
  - rewrite lookup_insert_eq. cbn [default from_option id]. rewrite Hinner.
    set (inner := default ∅ (result !! r0)).
    destruct (Z.eqb_spec u0 u) as [<-|Hu].
    + destruct (inner !! u0) as [l|] eqn:E; now rewrite lookup_insert_eq.
    + rewrite app_nil_r.
      destruct (inner !! u0) as [l|]; now rewrite lookup_insert_ne.
  - rewrite app_nil_r, lookup_insert_ne by exact Hr.
    now rewrite Hother by congruence.
Qed.

Lemma getReviewComments_loop_cons c cs result :
  getReviewComments_loop (c :: cs) result
  = getReviewComments_loop cs (getReviewComments_loop [c] result).
Proof. reflexivity. Qed.

Lemma comments_at_loop cs : forall result r u,
  comments_at (getReviewComments_loop cs result) r u
  = comments_at result r u ++ comments_of r u cs.
Proof.
  induction cs as [|c cs IH]; intros result r u.
  - cbn. now rewrite app_nil_r.
  - rewrite getReviewComments_loop_cons, IH, comments_at_step, <- app_assoc.
    f_equal. unfold comments_of. cbn [List.filter].
    now destruct (_ && _).
Qed.

(** X1: [getReviewComments] places every comment: what is read back under
    a review and a user is exactly the comments of that review by that
    user, in the order received; an absent key reads as no comment. *)
Theorem getReviewComments_groups (cs : list PullRequestComment) (r u : Z) :
  comments_at (getReviewComments cs) r u = comments_of r u cs.
Proof.
  unfold getReviewComments. rewrite comments_at_loop.
  unfold comments_at, slice_at. now rewrite !lookup_empty.
Qed.

Lemma getUserReviews_loop_spec reviews : forall result,
  ~ In None reviews ->
  exists groups,
    getUserReviews_loop reviews result = Done groups /\
    (forall login,
       slice_at groups login = slice_at result login ++ submitted_by login reviews) /\
    (forall login,
       groups !! login = None <->
       result !! login = None /\ submitted_by login reviews = []).
Proof.
  induction reviews as [|r reviews IH]; intros result Hnil.
  - exists result. split; [reflexivity|]. split; intros login.
    + cbn. now rewrite app_nil_r.
    + cbn. tauto.
  - destruct r as [review|]; [|exfalso; apply Hnil; now left].
    assert (Hnil' : ~ In None reviews) by (intros H; apply Hnil; now right).
    cbn [getUserReviews_loop]. unfold submitted_by. cbn [present List.filter].
    destruct (SubmittedAt review) as [t|] eqn:Esub; [|now apply IH].
    set (l0 := UserLogin review).
    set (result1 := match result !! l0 with
                    | None => <[l0:=[]]> result
                    | Some _ => result
                    end).
    assert (H1 : slice_at result1 l0 = slice_at result l0).
    { unfold result1, slice_at. destruct (result !! l0) as [l|] eqn:E.
      - now rewrite E.
      - now rewrite lookup_insert_eq. }
    assert (H2 : forall login, login <> l0 -> result1 !! login = result !! login).
    { intros login Hne. unfold result1. destruct (result !! l0); [reflexivity|].
      now rewrite lookup_insert_ne. }
    destruct (IH (<[l0:=slice_at result1 l0 ++ [review]]> result1) Hnil')
      as (groups & Hrun & Hread & Hnone).
    exists groups. split; [exact Hrun|]. split; intros login.
    + rewrite Hread. fold (submitted_by login reviews).
      destruct (String.eqb_spec l0 login) as [<-|Hne].
      * unfold slice_at at 1. rewrite lookup_insert_eq. cbn [default from_option id].
        rewrite H1, <- app_assoc. reflexivity.
      * unfold slice_at at 1. rewrite lookup_insert_ne by exact Hne.
        rewrite H2 by congruence. reflexivity.
    + rewrite Hnone. fold (submitted_by login reviews).
      destruct (String.eqb_spec l0 login) as [<-|Hne].
      * rewrite lookup_insert_eq. split; [intros [[=] _]|intros [_ [=]]].
      * rewrite lookup_insert_ne by exact Hne. rewrite H2 by congruence. tauto.
Qed.

(** X2: on a slice without nil entries [getUserReviews] returns, and under
    each login it holds exactly the reviews of that login that have a
    [SubmittedAt], in the order received; a login has a key iff it has such
    a review. *)
Theorem getUserReviews_groups (reviews : list (option PullRequestReview)) :
  ~ In None reviews ->
  exists groups,
    getUserReviews reviews = Done groups /\
    forall login,
      slice_at groups login = submitted_by login reviews /\
      (groups !! login = None <-> submitted_by login reviews = []).
Proof.
  intros Hnil.
  destruct (getUserReviews_loop_spec reviews ∅ Hnil) as (groups & Hrun & Hread & Hnone).
  exists groups. split; [exact Hrun|]. intros login. split.
  - rewrite Hread. unfold slice_at. now rewrite lookup_empty.
  - rewrite Hnone, lookup_empty. tauto.
Qed.

Lemma getUserReviews_groups_witness :
  exists groups,
    getUserReviews [review_by 1 11 "reviewer1" (168 * Hour);
                    review_by 2 12 "contributor1" (170 * Hour)] = Done groups /\
    forall login,
      slice_at groups login
        = submitted_by login [review_by 1 11 "reviewer1" (168 * Hour);
                              review_by 2 12 "contributor1" (170 * Hour)] /\
      (groups !! login = None <->
       submitted_by login [review_by 1 11 "reviewer1" (168 * Hour);
                           review_by 2 12 "contributor1" (170 * Hour)] = []).
Proof.
  apply (getUserReviews_groups [review_by 1 11 "reviewer1" (168 * Hour);
                                review_by 2 12 "contributor1" (170 * Hour)]).
  intros [H|[H|[]]]; discriminate.
Defined.

(** X3: [getUserReviews] stops the program exactly when the slice holds a
    nil entry, wherever it stands and whatever comes before it. *)
Theorem getUserReviews_panics_iff_nil (reviews : list (option PullRequestReview)) :
  getUserReviews reviews = Panic <-> In None reviews.
Proof.
  unfold getUserReviews. generalize (∅ : gmap string (list PullRequestReview)).
  induction reviews as [|r reviews IH]; intros result; cbn [getUserReviews_loop In].
  - split; [discriminate|tauto].
  - destruct r as [review|].
    + destruct (SubmittedAt review); rewrite IH; split; auto;
        intros [H|H]; [discriminate|exact H|discriminate|exact H].
    + split; auto.
Qed.

(** ** The matcher and the counting loop *)

Lemma has_prefix_spec p : forall s,
  has_prefix p s = true <-> exists rest, s = String.append p rest.
Proof.
  induction p as [|a p IH]; intros s; cbn [has_prefix String.append].
  - split; [eauto|reflexivity].
  - destruct s as [|b s].
    + split; [discriminate|intros [rest [=]]].
    + rewrite andb_true_iff, Ascii.eqb_eq, IH. split.
      * intros [-> [rest ->]]. eauto.
      * intros [rest [= -> ->]]. eauto.
Qed.

(** The model of [strings.Contains] tells whether [substr] occurs in [s]. *)
Lemma strings_Contains_spec substr s :
  strings_Contains s substr = true <->
  exists pre post, s = String.append pre (String.append substr post).
Proof.
  induction s as [|a s IH]; cbn [strings_Contains].
  - rewrite orb_false_r, has_prefix_spec. split.
    + intros [rest ->]. exists EmptyString, rest. reflexivity.
    + intros (pre & post & H). destruct pre as [|b pre]; [|discriminate].
      exists post. exact H.
  - rewrite orb_true_iff, has_prefix_spec, IH. split.
    + intros [[rest ->]|(pre & post & ->)].
      * exists EmptyString, rest. reflexivity.
      * exists (String a pre), post. reflexivity.
    + intros (pre & post & H). destruct pre as [|b pre].
      * left. exists post. exact H.
      * right. injection H as -> ->. eauto.
Qed.

Lemma files_loop_done comment files :
  Forall (patch_readable comment) files ->
  files_loop comment files = Done (existsb (file_matches comment) files).
Proof.
  induction 1 as [|file files Hf _ IH]; cbn [files_loop existsb]; [reflexivity|].
  unfold patch_readable in Hf. unfold file_matches at 1.
  destruct (ptr_eqb (Filename file) (Path comment)); cbn [andb orb]; [|exact IH].
  destruct (Patch file) as [r|]; [|now contradiction Hf].
  cbn [deref exec_bind]. destruct (_ && _); [reflexivity|exact IH].
Qed.

(** X4: when every file that shares the cell of the comment's path has a
    patch, [isCommentAddressedByCommit] answers, and it answers true iff
    for one of these files the text ["@@ -<OriginalPosition>"] occurs
    somewhere in the patch, whatever follows it. *)
Theorem matcher_is_textual (comment : PullRequestComment) (commit : RepositoryCommit) :
  Forall (patch_readable comment) (Files commit) ->
  (isCommentAddressedByCommit comment commit = Done true \/
   isCommentAddressedByCommit comment commit = Done false) /\
  (isCommentAddressedByCommit comment commit = Done true <->
   exists file r pre post,
     In file (Files commit) /\
     ptr_eqb (Filename file) (Path comment) = true /\
     Patch file = Some r /\
     ref_val r = String.append pre
                   (String.append (hunk_pattern (OriginalPosition comment)) post)).
Proof.
  intros Hp. unfold isCommentAddressedByCommit. rewrite (files_loop_done _ _ Hp).
  split; [destruct (existsb _ _); auto|].
  split.
  - intros [= H]. apply existsb_exists in H as (file & Hin & Hm).
    unfold file_matches in Hm. apply andb_true_iff in Hm as [Hcell Hm].
    destruct (Patch file) as [r|] eqn:Er; [|discriminate].
    apply andb_true_iff in Hm as [_ Hc].
    apply strings_Contains_spec in Hc as (pre & post & Hc).
    exists file, r, pre, post. auto.
  - intros (file & r & pre & post & Hin & Hcell & Er & Hc). f_equal.
    apply existsb_exists. exists file. split; [exact Hin|].
    unfold file_matches. rewrite Hcell, Er. cbn [andb].
    apply andb_true_iff. split.
    + rewrite Hc. destruct pre; reflexivity.
    + apply strings_Contains_spec. eauto.
Qed.

Lemma matcher_is_textual_witness :
  isCommentAddressedByCommit file_go_comment file_go_commit_shared = Done true <->
  exists file r pre post,
    In file (Files file_go_commit_shared) /\
    ptr_eqb (Filename file) (Path file_go_comment) = true /\
    Patch file = Some r /\
    ref_val r = String.append pre
                  (String.append (hunk_pattern (OriginalPosition file_go_comment)) post).
Proof.
  apply (matcher_is_textual file_go_comment file_go_commit_shared).
  repeat constructor. discriminate.
Defined.

(** X5: [isCommentAddressedByCommit] stops the program exactly when it
    reaches, before any file that matches, a file that shares the cell of
    the comment's path and has no patch. *)
Theorem matcher_panics_iff (comment : PullRequestComment) (commit : RepositoryCommit) :
  isCommentAddressedByCommit comment commit = Panic <->
  exists pre file post,
    Files commit = pre ++ file :: post /\
    existsb (file_matches comment) pre = false /\
    ptr_eqb (Filename file) (Path comment) = true /\
    Patch file = None.
Proof.
  unfold isCommentAddressedByCommit.
  induction (Files commit) as [|file0 files IH]; cbn [files_loop].
  - split; [discriminate|]. intros (pre & file & post & H & _).
    destruct pre; discriminate.
  - assert (Hskip : file_matches comment file0 = false ->
              (files_loop comment files = Panic <->
               exists pre file post,
                 file0 :: files = pre ++ file :: post /\
                 existsb (file_matches comment) pre = false /\
                 ptr_eqb (Filename file) (Path comment) = true /\
                 Patch file = None) \/
              (ptr_eqb (Filename file0) (Path comment) = true /\ Patch file0 = None)).
    { intros Hm.
      destruct (ptr_eqb (Filename file0) (Path comment)) eqn:Hcell;
        [destruct (Patch file0) eqn:Ep; [|now right]|]; left; rewrite IH; split.
      all: try (intros (pre & file & post & -> & Hpre & Hc & Hn);
                exists (file0 :: pre), file, post; cbn [existsb app];
                rewrite Hm, Hpre; auto).
      all: intros (pre & file & post & Hsplit & Hpre & Hc & Hn);
        destruct pre as [|f pre]; cbn [app] in Hsplit;
        injection Hsplit as <- ->; [congruence|];
        cbn [existsb] in Hpre; apply orb_false_iff in Hpre as [_ Hpre]; eauto 8. }
    unfold file_matches in Hskip.
    destruct (ptr_eqb (Filename file0) (Path comment)) eqn:Hcell.
    + destruct (Patch file0) as [r|] eqn:Ep; cbn [deref exec_bind].
      * destruct (negb _ && _) eqn:Hm.
        -- split; [discriminate|].
           intros (pre & file & post & Hsplit & Hpre & Hc & Hn).
           destruct pre as [|f pre]; cbn [app] in Hsplit;
             injection Hsplit as <- ->; [congruence|].
           cbn [existsb] in Hpre. unfold file_matches in Hpre.
           rewrite Hcell, Ep, Hm in Hpre. discriminate.
        -- destruct (Hskip eq_refl) as [H|[_ [=]]]. exact H.
      * split; [|reflexivity]. intros _. exists [], file0, files. auto.
    + destruct (Hskip eq_refl) as [H|[[=] _]]. exact H.
Qed.

Lemma commits_loop_done comment commits :
  Forall (fun commit => Forall (patch_readable comment) (Files commit)) commits ->
  commits_loop comment commits = Done (existsb (commit_addresses comment) commits).
Proof.
  induction 1 as [|commit commits Hc _ IH]; cbn [commits_loop existsb]; [reflexivity|].
  unfold commit_addresses at 1.
  destruct (After (CommitCreatedAt commit) (CommentCreatedAt comment));
    cbn [andb orb]; [|exact IH].
  unfold isCommentAddressedByCommit. rewrite (files_loop_done _ _ Hc).
  cbn [exec_bind].
  destruct (existsb (file_matches comment) (Files commit)); [reflexivity|exact IH].
Qed.

Lemma count_loop_done commits comments : forall n,
  Forall (fun c => Forall (fun commit => Forall (patch_readable c) (Files commit))
                     commits) comments ->
  0 <= n -> n + Z.of_nat (length comments) <= maxInt64 ->
  count_loop comments commits n =
  Done (n + Z.of_nat (length (List.filter
                                (fun c => existsb (commit_addresses c) commits)
                                comments))).
Proof.
  induction comments as [|c comments IH]; intros n Hp Hn Hfit.
  - cbn. f_equal. lia.
  - apply Forall_cons in Hp as [Hc Hp]. cbn [count_loop List.filter].
    rewrite (commits_loop_done _ _ Hc). cbn [exec_bind].
    cbn [length] in Hfit.
    destruct (existsb (commit_addresses c) commits).
    + rewrite wrap64_small by (go_consts; lia).
      rewrite IH by (assumption || lia). cbn [length]. f_equal. lia.
    + rewrite IH by (assumption || lia). reflexivity.
Qed.

(** X6: when the patches are there to read, the counting loop of
    [CalculateMetrics] returns the number of comments for which some commit
    created strictly after the comment passes the test of the matcher: a
    comment counts once however many commits address it, and the count is
    at most the number of comments. *)
Theorem count_is_number_of_addressed_comments
    (comments : list PullRequestComment) (commits : list RepositoryCommit) :
  Forall (fun c => Forall (fun commit => Forall (patch_readable c) (Files commit))
                     commits) comments ->
  Z.of_nat (length comments) <= maxInt64 ->
  count_loop comments commits 0 =
  Done (Z.of_nat (length (List.filter
                            (fun c => existsb (commit_addresses c) commits)
                            comments))) /\
  (length (List.filter (fun c => existsb (commit_addresses c) commits) comments)
   <= length comments)%nat.
Proof.
  intros Hp Hfit. split.
  - rewrite count_loop_done by (assumption || lia). reflexivity.
  - clear. induction comments as [|c comments IH]; cbn [List.filter length]; [lia|].
    destruct (existsb _ _); cbn [length]; lia.
Qed.

Lemma count_is_number_of_addressed_comments_witness :
  count_loop [file_go_comment; file_go_comment]
             [file_go_commit_shared; file_go_commit_shared] 0 = Done 2.
Proof.
  refine (proj1 (count_is_number_of_addressed_comments
                   [file_go_comment; file_go_comment]
                   [file_go_commit_shared; file_go_commit_shared] _ _)).
  - repeat constructor; discriminate.
  - vm_compute. discriminate.
Defined.

(** ** The running sums of the aggregator *)

Lemma review_step_PRsReviewed pr rc comments commits um review um' :
  review_step pr rc comments commits um review = Done um' ->
  PRsReviewed um' = PRsReviewed um.
Proof.
  unfold review_step. destruct (SubmittedAt review); [|discriminate].
  destruct (count_loop comments commits 0); cbn [exec_bind]; [|discriminate].
  now intros [= <-].
Qed.

Lemma reviews_loop_PRsReviewed pr rc comments commits reviews : forall um um',
  reviews_loop pr rc comments commits um reviews = Done um' ->
  PRsReviewed um' = PRsReviewed um.
Proof.
  induction reviews as [|review rest IH]; intros um um'; cbn [reviews_loop].
  - now intros [= <-].
  - destruct (review_step pr rc comments commits um review) as [um1|] eqn:E;
      cbn [exec_bind]; [|discriminate].
    intros H. rewrite (IH _ _ H). eapply review_step_PRsReviewed, E.
Qed.

(** X7: for a reviewer other than the author, the body of the user loop
    adds one to [PRsReviewed], however many reviews the reviewer submitted
    on the pull request; a reviewer met for the first time starts from
    zero. *)
Theorem prs_reviewed_once_per_pull_request (pr : PullRequest)
    (rc : gmap Z (gmap Z (list PullRequestComment)))
    (comments : list PullRequestComment) (commits : list RepositoryCommit)
    (metrics metrics' : gmap string ContributorMetrics)
    (user : string) (reviews : list PullRequestReview) :
  user <> PRUserLogin pr ->
  user_step pr rc comments commits metrics (user, reviews) = Done metrics' ->
  exists um,
    metrics' !! user = Some um /\
    PRsReviewed um
      = wrap64 (PRsReviewed (default zero_metrics (metrics !! user)) + 1).
Proof.
  intros Hne. unfold user_step.
  destruct (String.eqb_spec user (PRUserLogin pr)) as [E|_]; [contradiction|].
  cbn [negb].
  destruct (reviews_loop _ _ _ _ _ _) as [um|] eqn:E; cbn [exec_bind]; [|discriminate].
  intros [= <-]. exists um. split; [apply lookup_insert_eq|].
  apply reviews_loop_PRsReviewed in E. exact E.
Qed.

Lemma prs_reviewed_once_per_pull_request_witness :
  exists um,
    (<["reviewer1" := after_two_reviews]> (∅ : gmap string ContributorMetrics))
      !! "reviewer1" = Some um /\
    PRsReviewed um
      = wrap64 (PRsReviewed
                  (default zero_metrics
                     ((∅ : gmap string ContributorMetrics) !! "reviewer1")) + 1).
Proof.
  apply (prs_reviewed_once_per_pull_request pr1 ∅ [] [] ∅
           (<["reviewer1" := after_two_reviews]> ∅) "reviewer1" two_reviews).
  - discriminate.
  - vm_compute. reflexivity.
Defined.

Lemma review_step_TotalComments pr rc comments commits um review um' :
  review_step pr rc comments commits um review = Done um' ->
  TotalComments um'
    = wrap64 (TotalComments um
              + Z.of_nat (length (comments_at rc (ID review) (UserID review)))).
Proof.
  unfold review_step. destruct (SubmittedAt review); [|discriminate].
  destruct (count_loop comments commits 0); cbn [exec_bind]; [|discriminate].
  now intros [= <-].
Qed.

(** X8: over the reviews of one reviewer on one pull request,
    [TotalComments] grows by the number of fetched comments that carry the
    ID of one of these reviews and the user ID of that review, as long as
    the sum fits an [int]. *)
Theorem total_comments_adds_own_comments (pr : PullRequest)
    (comments : list PullRequestComment) (commits : list RepositoryCommit)
    (reviews : list PullRequestReview) (um um' : ContributorMetrics) :
  0 <= TotalComments um ->
  TotalComments um
    + fold_right (fun r acc =>
                    Z.of_nat (length (comments_of (ID r) (UserID r) comments)) + acc)
                 0 reviews <= maxInt64 ->
  reviews_loop pr (getReviewComments comments) comments commits um reviews = Done um' ->
  TotalComments um'
    = TotalComments um
      + fold_right (fun r acc =>
                      Z.of_nat (length (comments_of (ID r) (UserID r) comments)) + acc)
                   0 reviews.
Proof.
  revert um. induction reviews as [|review rest IH]; intros um Hpos Hfit;
    cbn [reviews_loop fold_right] in *.
  - intros [= <-]. lia.
  - destruct (review_step pr (getReviewComments comments) comments commits um review)
      as [um1|] eqn:E; cbn [exec_bind]; [|discriminate].
    apply review_step_TotalComments in E.
    unfold getReviewComments in E. rewrite comments_at_loop in E.
    unfold comments_at at 1, slice_at in E. rewrite lookup_empty in E.
    cbn [default from_option id] in E. rewrite lookup_empty in E.
    cbn [default from_option id app] in E.
    assert (Hrest : 0 <= fold_right
              (fun r acc => Z.of_nat (length (comments_of (ID r) (UserID r) comments)) + acc)
              0 rest).
    { clear. induction rest; cbn [fold_right]; lia. }
    rewrite wrap64_small in E by (go_consts; lia).
    intros H. rewrite (IH um1) by (assumption || lia). lia.
Qed.

Lemma total_comments_adds_own_comments_witness :
  TotalComments one_of_one
  = TotalComments (incr_PRsReviewed zero_metrics)
    + fold_right (fun r acc =>
                    Z.of_nat (length (comments_of (ID r) (UserID r) [file_go_comment])) + acc)
                 0 (present [review_by 1 11 "reviewer1" (168 * Hour)]).
Proof.
  refine (total_comments_adds_own_comments pr1 [file_go_comment]
            [file_go_commit_shared]
            (present [review_by 1 11 "reviewer1" (168 * Hour)])
            (incr_PRsReviewed zero_metrics) one_of_one _ _ _).
  - vm_compute. discriminate.
  - vm_compute. discriminate.
  - reflexivity.
Defined.

(** X9: after the reviews of a reviewer on a pull request, the field
    [PercentageCommentsLeadingToChanges] holds the count over all the
    comments and commits fetched for this pull request, whoever wrote the
    comments; what the field held before, from earlier pull requests, is
    gone. *)
Theorem change_count_is_overwritten (pr : PullRequest)
    (rc : gmap Z (gmap Z (list PullRequestComment)))
    (comments : list PullRequestComment) (commits : list RepositoryCommit)
    (reviews : list PullRequestReview) (um um' : ContributorMetrics) :
  reviews <> [] ->
  reviews_loop pr rc comments commits um reviews = Done um' ->
  exists n,
    count_loop comments commits 0 = Done n /\
    PercentageCommentsLeadingToChanges um' = float64_of_int n.
Proof.
  revert um. induction reviews as [|review rest IH]; intros um Hne; [congruence|].
  cbn [reviews_loop].
  destruct (review_step pr rc comments commits um review) as [um1|] eqn:E;
    cbn [exec_bind]; [|discriminate].
  destruct rest as [|review2 rest].
  - cbn [reviews_loop]. intros [= <-]. unfold review_step in E.
    destruct (SubmittedAt review); [|discriminate].
    destruct (count_loop comments commits 0) as [n|]; cbn [exec_bind] in E;
      [|discriminate].
    injection E as <-. exists n. split; reflexivity.
  - apply IH. discriminate.
Qed.

Lemma change_count_is_overwritten_witness :
  exists n,
    count_loop [file_go_comment] [file_go_commit_shared] 0 = Done n /\
    PercentageCommentsLeadingToChanges one_of_one = float64_of_int n.
Proof.
  apply (change_count_is_overwritten pr1 (getReviewComments [file_go_comment])
           [file_go_comment] [file_go_commit_shared]
           (present [review_by 1 11 "reviewer1" (168 * Hour)])
           earlier_sums one_of_one).
  - discriminate.
  - reflexivity.
Defined.

Lemma getUserReviews_loop_submitted reviews : forall result groups,
  getUserReviews_loop reviews result = Done groups ->
  (forall login l, result !! login = Some l ->
                   Forall (fun r => SubmittedAt r <> None) l) ->
  forall login l, groups !! login = Some l ->
                  Forall (fun r => SubmittedAt r <> None) l.
Proof.
  induction reviews as [|r reviews IH]; intros result groups; cbn [getUserReviews_loop].
  - intros [= <-] H. exact H.
  - destruct r as [review|]; [|discriminate].
    destruct (SubmittedAt review) as [t|] eqn:Esub; [|apply IH].
    intros Hrun Hres. apply (IH _ _ Hrun). intros login l.
    set (l0 := UserLogin review).
    assert (Hold : Forall (fun r => SubmittedAt r <> None)
                     (slice_at match result !! l0 with
                               | None => <[l0:=[]]> result
                               | Some _ => result
                               end l0)).
    { unfold slice_at. destruct (result !! l0) as [l'|] eqn:E.
      - rewrite E. cbn. eapply Hres, E.
      - rewrite lookup_insert_eq. constructor. }
    destruct (String.eqb_spec l0 login) as [<-|Hne].
    + rewrite lookup_insert_eq. intros [= <-].
      apply Forall_app. split; [exact Hold|]. constructor; [congruence|constructor].
    + rewrite lookup_insert_ne by exact Hne.
      destruct (result !! l0) eqn:E; [apply Hres|].
      rewrite lookup_insert_ne by exact Hne. apply Hres.
Qed.

Lemma reviews_loop_no_comments pr rc reviews : forall um,
  Forall (fun r => SubmittedAt r <> None) reviews ->
  exists um', reviews_loop pr rc [] [] um reviews = Done um'.
Proof.
  induction reviews as [|review rest IH]; intros um Hall; cbn [reviews_loop].
  - eauto.
  - apply Forall_cons in Hall as [Hr Hall]. unfold review_step.
    destruct (SubmittedAt review); [|congruence].
    cbn [count_loop exec_bind]. apply IH, Hall.
Qed.

Lemma users_loop_no_comments pr rc entries : forall metrics,
  Forall (fun e => Forall (fun r => SubmittedAt r <> None) (snd e)) entries ->
  exists metrics', users_loop pr rc [] [] metrics entries = Done metrics'.
Proof.
  induction entries as [|[user reviews] rest IH]; intros metrics Hall;
    cbn [users_loop].
  - eauto.
  - apply Forall_cons in Hall as [He Hall]. unfold user_step.
    destruct (negb _); cbn [exec_bind]; [|apply IH, Hall].
    destruct (reviews_loop_no_comments pr rc reviews
                (incr_PRsReviewed (default zero_metrics (metrics !! user))) He)
      as [um' ->].
    cbn [exec_bind]. apply IH, Hall.
Qed.

(** X10: for a pull request without comments the commits are not fetched:
    once the reviews are grouped, the step ends with the state the client
    had after [GetComments] and goes on to the next pull request. *)
Theorem no_comments_no_commit_fetch {St : Type} (client : GitClient St)
    (owner repo : string) (st st1 st2 : St)
    (metrics : gmap string ContributorMetrics) (pr : PullRequest)
    (rs : list (option PullRequestReview))
    (ur : gmap string (list PullRequestReview)) :
  GetReviews client st owner repo (Number pr) = (st1, (rs, None)) ->
  getUserReviews rs = Done ur ->
  GetComments client st1 owner repo (Number pr) = (st2, ([], None)) ->
  exists metrics',
    pr_step client owner repo st metrics pr = Done (st2, Next metrics').
Proof.
  intros H1 H2 H3. unfold pr_step. rewrite H1, H2. cbn [exec_bind]. rewrite H3.
  cbn [length Z.of_nat Z.ltb Z.compare].
  destruct (users_loop_no_comments pr (getReviewComments []) (map_to_list ur) metrics)
    as [metrics' ->]; [|cbn [exec_bind]; eauto].
  apply Forall_forall. intros [user reviews] Hin. cbn [snd].
  apply elem_of_map_to_list in Hin.
  eapply (getUserReviews_loop_submitted rs ∅ ur H2); [|exact Hin].
  intros login l. rewrite lookup_empty. discriminate.
Qed.

Lemma no_comments_no_commit_fetch_witness :
  exists metrics',
    pr_step self_review "owner" "repo" 1%nat ∅ pr1 = Done (3%nat, Next metrics').
Proof.
  apply (no_comments_no_commit_fetch self_review "owner" "repo" 1%nat 2%nat 3%nat
           ∅ pr1
           [review_by 1 11 "reviewer1" (168 * Hour);
            review_by 2 12 "contributor1" (170 * Hour)]
           (<["contributor1" := present [review_by 2 12 "contributor1" (170 * Hour)]]>
              (<["reviewer1" := present [review_by 1 11 "reviewer1" (168 * Hour)]]> ∅))).
  - reflexivity.
  - vm_compute. reflexivity.
  - reflexivity.
Defined.

(** ** More on the period merger *)

Lemma sum_spans_le_span ts :
  StronglySorted Z.le ts ->
  sum_spans (sessions ts) <= List.last ts 0 - hd 0 ts.
Proof.
  induction 1 as [|a l Hs IH Ha]; [cbn; lia|].
  destruct l as [|b l]; [rewrite sum_spans_single; cbn; lia|].
  rewrite sum_spans_step. apply Forall_cons in Ha as [Hab _].
  change (List.last (a :: b :: l) 0) with (List.last (b :: l) 0).
  cbn [hd] in *. destruct (b - a >? 30 * Minute); lia.
Qed.

(** X11: the duration returned for a non-empty comment list is at most the
    time between the earliest and the latest of the time stamps (submission
    time and comment times), or the floor when that is shorter, as long as
    that time fits a [Duration]. *)
Theorem period_at_most_full_span (cs : list PullRequestComment) (s : Time)
    (hi lo : Time) :
  cs <> [] ->
  latest hi (s :: map CommentCreatedAt cs) ->
  earliest lo (s :: map CommentCreatedAt cs) ->
  hi - lo <= maxInt64 ->
  CalculateTotalCommentPeriodLength cs s <= Z.max (3 * Minute) (hi - lo).
Proof.
  intros Hne Hhi Hlo Hfit. change (3 * Minute) with minDuration.
  set (ts := sort_Slice (s :: map CommentCreatedAt cs)).
  assert (Hp : Permutation ts (s :: map CommentCreatedAt cs)).
  { symmetry. apply sort_Slice_perm. }
  assert (Hs : StronglySorted Z.le ts) by apply sort_Slice_sorted.
  assert (Hhi' : latest hi ts).
  { destruct Hhi as [Hin Hall]. split.
    - eapply Permutation_in; [symmetry; exact Hp|exact Hin].
    - now rewrite Hp. }
  assert (Hlo' : earliest lo ts).
  { destruct Hlo as [Hin Hall]. split.
    - eapply Permutation_in; [symmetry; exact Hp|exact Hin].
    - now rewrite Hp. }
  destruct ts as [|t ts'] eqn:Ets.
  { apply Permutation_nil in Hp. discriminate. }
  destruct (sorted_extremes t ts' hi lo Hs Hhi' Hlo') as [-> ->].
  pose proof (sum_spans_le_span _ Hs) as Hle. cbn [hd] in Hle.
  rewrite (period_length_sessions cs s (t :: ts') Hne Hp Hs) by lia.
  lia.
Qed.

Lemma period_at_most_full_span_witness :
  CalculateTotalCommentPeriodLength
    [comment_at (40 * Minute); comment_at 0] (45 * Minute)
  <= Z.max (3 * Minute) (45 * Minute - 0).
Proof.
  apply (period_at_most_full_span
           [comment_at (40 * Minute); comment_at 0] (45 * Minute)).
  - discriminate.
  - split; [now left|]. repeat constructor; vm_compute; discriminate.
  - split; [right; right; now left|]. repeat constructor; vm_compute; discriminate.
  - vm_compute. discriminate.
Defined.

(** X12: with a single comment the result is the time between the comment
    and the submission when this is at most thirty minutes (the floor when
    it is less than that), and the floor when it is more: a comment written
    longer before the submission adds nothing. *)
Theorem single_comment_period (c : PullRequestComment) (s : Time) :
  CalculateTotalCommentPeriodLength [c] s
  = if Z.abs (s - CommentCreatedAt c) <=? 30 * Minute
    then Z.max (3 * Minute) (Z.abs (s - CommentCreatedAt c))
    else 3 * Minute.
Proof.
  change (3 * Minute) with minDuration.
  set (t := CommentCreatedAt c).
  assert (Hsum : sum_spans (sessions [Z.min s t; Z.max s t])
                 = if Z.abs (s - t) <=? 30 * Minute then Z.abs (s - t) else 0).
  { rewrite sum_spans_step, sum_spans_single.
    destruct (Z.gtb_spec (Z.max s t - Z.min s t) (30 * Minute));
      destruct (Z.leb_spec (Z.abs (s - t)) (30 * Minute)); lia. }
  rewrite (period_length_sessions [c] s [Z.min s t; Z.max s t]).
  - rewrite Hsum. destruct (Z.leb_spec (Z.abs (s - t)) (30 * Minute)); [reflexivity|].
    go_consts. lia.
  - discriminate.
  - cbn [map]. fold t. destruct (Z.le_ge_cases s t) as [H|H].
    + rewrite Z.min_l, Z.max_r by lia. reflexivity.
    + rewrite Z.min_r, Z.max_l by lia. apply perm_swap.
  - repeat constructor. lia.
  - rewrite Hsum. destruct (Z.leb_spec (Z.abs (s - t)) (30 * Minute));
      go_consts; lia.
Qed.

(** ** More on the window filter and on the paging *)

Section Paging.
Import Github WindowSpec.

Lemma nth_error_skipn {A} (l : list A) : forall n x,
  nth_error l n = Some x -> exists l', skipn n l = x :: l'.
Proof.
  induction l as [|a l IH]; intros [|n] x; cbn; try discriminate.
  - intros [= ->]. eauto.
  - apply IH.
Qed.

(** X13: on any page, sorted or not, [filterPullRequests] returns without
    an index out of range, and what it returns is one stretch of the page:
    before it stand pull requests newer than [dateTo] only; the stretch
    starts, if it is not empty, with a pull request created at or before
    [dateTo], and holds none created before [dateFrom]; behind it the page
    goes on only if the stop signal is set, with a pull request created
    before [dateFrom]. *)
Theorem window_filter_any_page (prs : list GhPullRequest) (dateFrom dateTo : Time) :
  exists res found stop pre post,
    filterPullRequests prs dateFrom dateTo = Done (res, found, stop) /\
    prs = pre ++ res ++ post /\
    Forall (fun pr => dateTo < GhCreatedAt pr /\ dateFrom <= GhCreatedAt pr) pre /\
    Forall (fun pr => dateFrom <= GhCreatedAt pr) res /\
    (forall pr rest, res = pr :: rest -> GhCreatedAt pr <= dateTo) /\
    (found = true <-> res <> []) /\
    (stop = false -> post = []) /\
    (stop = true -> exists pr post', post = pr :: post' /\ GhCreatedAt pr < dateFrom).
Proof.
  pose proof (filterPullRequests_scan prs dateFrom dateTo) as Hrun. cbn zeta in Hrun.
  set (p := scanned dateFrom prs) in *.
  set (k := length (take_while (newer dateTo) p)) in *.
  exists (skipn k p), (k <? length p)%nat, (length p <? length prs)%nat,
         (take_while (newer dateTo) p), (skipn (length p) prs).
  assert (Hp : Forall (fun pr => dateFrom <= GhCreatedAt pr) p).
  { eapply Forall_impl; [apply take_while_Forall|]. intros pr H. cbn in H.
    unfold older in H. apply negb_true_iff, Z.ltb_ge in H. exact H. }
  assert (Hpk : p = take_while (newer dateTo) p ++ skipn k p).
  { rewrite (take_while_firstn (newer dateTo) p). fold k.
    symmetry. apply firstn_skipn. }
  assert (Hprs : prs = p ++ skipn (length p) prs).
  { unfold p at 1, scanned. rewrite take_while_firstn.
    fold (scanned dateFrom prs). fold p. symmetry. apply firstn_skipn. }
  split; [exact Hrun|]. split.
  { rewrite app_assoc, <- Hpk. exact Hprs. }
  split.
  { rewrite Hpk in Hp. apply Forall_app in Hp as [Hpre _].
    pose proof (take_while_Forall (newer dateTo) p) as Hn.
    rewrite Forall_forall in Hpre, Hn. apply Forall_forall. intros pr Hin.
    specialize (Hn pr Hin). unfold newer in Hn. apply Z.ltb_lt in Hn.
    split; [exact Hn|now apply Hpre]. }
  split.
  { rewrite Hpk in Hp. now apply Forall_app in Hp as [_ Hres]. }
  split.
  { intros pr rest Hres.
    destruct (Nat.lt_ge_cases k (length p)) as [Hlt|Hge].
    - destruct (take_while_stop (newer dateTo) p Hlt) as (x & Hx & Hnew).
      fold k in Hx. apply nth_error_skipn in Hx as [l' Hx].
      rewrite Hx in Hres. injection Hres as -> _.
      unfold newer in Hnew. apply Z.ltb_ge in Hnew. exact Hnew.
    - rewrite skipn_all2 in Hres by exact Hge. discriminate. }
  split.
  { rewrite Nat.ltb_lt. split.
    - intros Hlt E. apply (f_equal (@length _)) in E.
      rewrite length_skipn in E. cbn in E. lia.
    - intros Hne. destruct (Nat.lt_ge_cases k (length p)) as [|Hge]; [assumption|].
      exfalso. apply Hne. now apply skipn_all2. }
  split.
  { intros Hstop. apply Nat.ltb_ge in Hstop. now apply skipn_all2. }
  intros Hstop. apply Nat.ltb_lt in Hstop.
  destruct (take_while_stop (fun pr => negb (older dateFrom pr)) prs Hstop)
    as (x & Hx & Hold).
  fold (scanned dateFrom prs) in Hx. fold p in Hx.
  apply nth_error_skipn in Hx as [l' Hx]. exists x, l'. split; [exact Hx|].
  unfold older in Hold. apply negb_false_iff, Z.ltb_lt in Hold. exact Hold.
Qed.

(** One turn of the paging loop on a request that was answered. *)
Lemma paging_step_answered fuel now api dateFrom dateTo g page allPRs prs resp err :
  api page = (prs, Some resp, err) ->
  GetPullRequests_loop (S fuel) now api dateFrom dateTo g page allPRs
  = match err with
    | Some e => Some (Done (counted g resp, ([], Some e)))
    | None =>
        match filterPullRequests prs dateFrom dateTo with
        | Panic => Some Panic
        | Done (prsFiltered, found, foundBeforeDateFrom) =>
            let allPRs' :=
              if found then allPRs ++ newPullRequestSlice prsFiltered else allPRs in
            if (NextPage resp =? 0) || foundBeforeDateFrom
            then Some (Done (counted g resp, (allPRs', None)))
            else GetPullRequests_loop fuel now api dateFrom dateTo (counted g resp)
                   (NextPage resp) allPRs'
        end
    end.
Proof.
  intros Hapi. cbn [GetPullRequests_loop]. rewrite Hapi.
  destruct (verifyRateLimit_answered now g resp) as [e ->]. reflexivity.
Qed.

(** One turn of the paging loop on a request that got no response. *)
Lemma paging_step_unanswered fuel now api dateFrom dateTo g page allPRs prs err :
  api page = (prs, None, err) ->
  GetPullRequests_loop (S fuel) now api dateFrom dateTo g page allPRs = Some Panic.
Proof. intros Hapi. cbn [GetPullRequests_loop]. now rewrite Hapi. Qed.



(** A server that cannot be reached stops the program, although the call
    reports an error. *)
Example paging_unreachable_server :
  GetPullRequests 5 (49 * Hour) unreachable_api fresh_client (10 * Hour) (20 * Hour)
  = Some Panic.
Proof. reflexivity. Qed.

Lemma paging_loop_window fuel now api dateFrom dateTo :
  (forall page, descending (fst (fst (api page)))) ->
  forall g page allPRs g' prs,
    Forall (fun pr => dateFrom <= PRCreatedAt pr <= dateTo) allPRs ->
    GetPullRequests_loop fuel now api dateFrom dateTo g page allPRs
      = Some (Done (g', (prs, None))) ->
    Forall (fun pr => dateFrom <= PRCreatedAt pr <= dateTo) prs.
Proof.
  intros Hdesc. induction fuel as [|fuel IH]; intros g page allPRs g' prs Hall;
    [discriminate|].
  specialize (Hdesc page).
  destruct (api page) as [[page_prs [resp|]] err] eqn:Eapi; cbn [fst] in Hdesc.
  2: { rewrite (paging_step_unanswered _ _ _ _ _ _ _ _ _ _ Eapi). discriminate. }
  rewrite (paging_step_answered _ _ _ _ _ _ _ _ _ _ _ Eapi).
  destruct err as [e|]; [discriminate|].
  pose proof (filterPullRequests_scan page_prs dateFrom dateTo) as Hscan.
  cbn zeta in Hscan. rewrite Hscan. cbn zeta.
  destruct (descending_split page_prs dateFrom dateTo Hdesc) as [Hres _].
  cbn zeta in Hres.
  assert (Hall' : Forall (fun pr => dateFrom <= PRCreatedAt pr <= dateTo)
            (if (length (take_while (newer dateTo) (scanned dateFrom page_prs))
                 <? length (scanned dateFrom page_prs))%nat
             then allPRs ++ newPullRequestSlice
                    (skipn (length (take_while (newer dateTo)
                                      (scanned dateFrom page_prs)))
                           (scanned dateFrom page_prs))
             else allPRs)).
  { destruct (_ <? _)%nat; [|exact Hall].
    apply Forall_app. split; [exact Hall|]. rewrite Hres.
    unfold newPullRequestSlice. apply Forall_map.
    eapply Forall_impl; [apply Forall_List_filter|].
    intros pr H. cbn in H. unfold in_window in H.
    apply andb_true_iff in H as [H1 H2].
    apply Z.leb_le in H1, H2. cbn. lia. }
  destruct (_ || _).
  - intros [= <- <-]. exact Hall'.
  - apply IH. exact Hall'.
Qed.

(** X15: when every page the server sends is sorted by creation time, the
    latest first, every pull request that [GetPullRequests] returns was
    created within [[dateFrom, dateTo]]. *)
Theorem paging_returns_window_only (fuel : nat) (now : Time)
    (api : Z -> ListAnswer) (g g' : GitHubClient) (dateFrom dateTo : Time)
    (prs : list PullRequest) :
  (forall page, descending (fst (fst (api page)))) ->
  GetPullRequests fuel now api g dateFrom dateTo = Some (Done (g', (prs, None))) ->
  Forall (fun pr => dateFrom <= PRCreatedAt pr <= dateTo) prs.
Proof.
  intros Hdesc Hrun.
  eapply (paging_loop_window fuel now api dateFrom dateTo Hdesc g 0 []);
    [constructor|exact Hrun].
Qed.

Lemma paging_returns_window_only_witness :
  Forall (fun pr => 10 * Hour <= PRCreatedAt pr <= 20 * Hour)
    [{| Number := 2; PRUserLogin := "contributor1"; PRCreatedAt := 15 * Hour |};
     {| Number := 1; PRUserLogin := "contributor2"; PRCreatedAt := 12 * Hour |}].
Proof.
  apply (paging_returns_window_only 5 (50 * Hour) exhausted_api fresh_client
           {| apiRateUsed := 3; apiRateRemaining := 4999 |} (10 * Hour) (20 * Hour)).
  - intros page. unfold exhausted_api. destruct (page =? 0); repeat constructor.
  - reflexivity.
Defined.

(** X16: a first page, sorted the latest first, that holds a pull request
    created before [dateFrom] or that the server reports to be the last one
    ends the paging: one call is made and counted, whatever next page the
    server announces, and the pull requests of that page within the window
    are returned. *)
Theorem paging_stops_on_first_page (fuel : nat) (now : Time)
    (api : Z -> ListAnswer) (g : GitHubClient) (dateFrom dateTo : Time)
    (prs : list GhPullRequest) (resp : Response) :
  api 0 = (prs, Some resp, None) ->
  descending prs ->
  NextPage resp = 0 \/ Exists (fun pr => GhCreatedAt pr < dateFrom) prs ->
  GetPullRequests (S fuel) now api g dateFrom dateTo
  = Some (Done ({| apiRateUsed := wrap64 (apiRateUsed g + 1);
                   apiRateRemaining := Remaining (RespRate resp) |},
                (newPullRequestSlice (List.filter (in_window dateFrom dateTo) prs),
                 None))).
Proof.
  intros Hapi Hdesc Hstop. unfold GetPullRequests.
  rewrite (paging_step_answered _ _ _ _ _ _ _ _ _ _ _ Hapi).
  pose proof (filterPullRequests_scan prs dateFrom dateTo) as Hscan.
  cbn zeta in Hscan. rewrite Hscan. cbn zeta.
  destruct (descending_split prs dateFrom dateTo Hdesc) as [Hres _].
  cbn zeta in Hres.
  set (p := scanned dateFrom prs) in *.
  set (k := length (take_while (newer dateTo) p)) in *.
  assert (Hcond : (NextPage resp =? 0) || (length p <? length prs)%nat = true).
  { apply orb_true_iff. destruct Hstop as [H|H].
    - left. now apply Z.eqb_eq.
    - right. now apply scanned_stops. }
  rewrite Hcond. unfold counted. do 4 f_equal.
  destruct (Nat.ltb_spec k (length p)) as [Hlt|Hge].
  - cbn [app]. now rewrite Hres.
  - rewrite <- Hres, skipn_all2 by exact Hge. reflexivity.
Qed.

Lemma paging_stops_on_first_page_witness :
  GetPullRequests 1 (49 * Hour)
    (fun _ => (page, Some {| NextPage := 2; RespRate := RespRate quota_left |}, None))
    fresh_client (10 * Hour) (20 * Hour)
  = Some (Done ({| apiRateUsed := wrap64 (apiRateUsed fresh_client + 1);
                   apiRateRemaining :=
                     Remaining (RespRate {| NextPage := 2;
                                            RespRate := RespRate quota_left |}) |},
                (newPullRequestSlice
                   (List.filter (in_window (10 * Hour) (20 * Hour)) page), None))).
Proof.
  apply (paging_stops_on_first_page 0 (49 * Hour)
           (fun _ => (page, Some {| NextPage := 2; RespRate := RespRate quota_left |},
                      None))
           fresh_client (10 * Hour) (20 * Hour) page
           {| NextPage := 2; RespRate := RespRate quota_left |}).
  - reflexivity.
  - repeat constructor; vm_compute; discriminate.
  - right. apply Exists_exists. exists (gh_pr 1 "e" (5 * Hour)). split.
    + apply list_elem_of_In. cbn. tauto.
    + vm_compute. reflexivity.
Defined.

End Paging.

(** ** The commits of a pull request *)

Section Commits.
Import Github.

Lemma GetCommits_loop_step now getCommit firstCommentTime includeFiles g errs
    commit rest :
  GetCommits_loop now getCommit firstCommentTime includeFiles g errs (commit :: rest)
  = if detail_wanted firstCommentTime includeFiles commit then
      let '(detailedCommit, resp, err) := getCommit (GhSHA commit) in
      match resp, detailedCommit with
      | Some resp, Some detailed =>
          let! r := GetCommits_loop now getCommit firstCommentTime includeFiles
                      (counted g resp) (processError err errs) rest in
          let '(g'', errs'', rest') := r in
          Done (g'', errs'',
                {| GhSHA := GhSHA commit; GhCommitterDate := GhCommitterDate commit;
                   GhFiles := GhFiles detailed |} :: rest')
      | _, _ => Panic
      end
    else
      let! r := GetCommits_loop now getCommit firstCommentTime includeFiles
                  g errs rest in
      let '(g'', errs'', rest') := r in
      Done (g'', errs'', commit :: rest').
Proof.
  cbn [GetCommits_loop]. unfold detail_wanted.
  destruct (After _ _), includeFiles; try reflexivity. cbn [andb].
  destruct (getCommit (GhSHA commit)) as [[detailed [resp|]] err].
  - destruct (verifyRateLimit_answered now g resp) as [e ->].
    cbn [exec_bind fst]. destruct detailed; reflexivity.
  - cbn [verifyRateLimit exec_bind]. destruct detailed; reflexivity.
Qed.

Lemma GetCommits_answered now commits resp err getCommit g firstCommentTime
    includeFiles :
  GetCommits now (commits, Some resp, err) getCommit g firstCommentTime includeFiles
  = (let! r := GetCommits_loop now getCommit firstCommentTime includeFiles
                 (counted g resp) (processError err (Some [])) commits in
     let '(g', errs', commits') := r in
     Done (g', (newRepositoryCommitSlice commits', default [] errs'))).
Proof.
  unfold GetCommits. destruct (verifyRateLimit_answered now g resp) as [e ->].
  reflexivity.
Qed.

Lemma GetCommits_loop_spec now getCommit firstCommentTime includeFiles commits :
  forall g errs,
    details_present getCommit firstCommentTime includeFiles commits ->
    exists g',
      GetCommits_loop now getCommit firstCommentTime includeFiles g (Some errs) commits
      = Done (g',
              Some (errs ++ detail_errors getCommit firstCommentTime includeFiles commits),
              map (with_detail getCommit firstCommentTime includeFiles) commits).
Proof.
  induction commits as [|commit rest IH]; intros g errs Hd.
  - exists g. cbn. now rewrite app_nil_r.
  - apply Forall_cons in Hd as [Hc Hd].
    rewrite GetCommits_loop_step. unfold detail_errors. cbn [map List.filter].
    unfold with_detail at 1.
    destruct (detail_wanted firstCommentTime includeFiles commit).
    + destruct (getCommit (GhSHA commit)) as [[detailed resp] err] eqn:Eapi.
      cbn [fst snd] in *. destruct (Hc eq_refl) as [Hdet Hresp].
      destruct detailed as [detailed|]; [|congruence].
      destruct resp as [resp|]; [|congruence].
      destruct (IH (counted g resp)
                   (errs ++ match err with Some e => [e] | None => [] end) Hd)
        as [g' Hrun].
      exists g'. cbn [flat_map]. rewrite Eapi. cbn [snd].
      replace (processError err (Some errs))
        with (Some (errs ++ match err with Some e => [e] | None => [] end))
        by (destruct err; cbn; [reflexivity|now rewrite app_nil_r]).
      rewrite Hrun. cbn [exec_bind]. rewrite <- app_assoc. reflexivity.
    + destruct (IH g errs Hd) as [g' Hrun]. exists g'.
      rewrite Hrun. reflexivity.
Qed.

(** X17: when the listing comes with a response and every detail request
    brings a commit and a response, [GetCommits] returns the listed commits
    in their order and with their dates; a commit created after
    [firstCommentTime] carries, if [includeFiles] is set, the files of its
    detailed answer, and any other commit the files it was listed with; the
    errors are the error of the listing, if any, followed by the errors of
    the detail requests in order. *)
Theorem GetCommits_hands_on_commits (now : Time)
    (commits : list GhRepositoryCommit) (resp : Response) (err : option error)
    (getCommit : string -> CommitAnswer) (g : GitHubClient)
    (firstCommentTime : Time) (includeFiles : bool) :
  details_present getCommit firstCommentTime includeFiles commits ->
  exists g',
    GetCommits now (commits, Some resp, err) getCommit g firstCommentTime includeFiles
    = Done (g',
            (newRepositoryCommitSlice
               (map (with_detail getCommit firstCommentTime includeFiles) commits),
             match err with Some e => [e] | None => [] end
             ++ detail_errors getCommit firstCommentTime includeFiles commits)) /\
    map CommitCreatedAt
        (newRepositoryCommitSlice
           (map (with_detail getCommit firstCommentTime includeFiles) commits))
    = map GhCommitterDate commits.
Proof.
  intros Hd. rewrite GetCommits_answered.
  destruct (GetCommits_loop_spec now getCommit firstCommentTime includeFiles commits
              (counted g resp)
              match err with Some e => [e] | None => [] end Hd) as [g' Hrun].
  exists g'. split.
  - replace (processError err (Some []))
      with (Some match err with Some e => [e] | None => [] end)
      by (now destruct err).
    rewrite Hrun. reflexivity.
  - unfold newRepositoryCommitSlice. rewrite !map_map. apply map_ext.
    intros commit. unfold with_detail.
    destruct (detail_wanted _ _ _); [|reflexivity].
    destruct (fst (fst (getCommit (GhSHA commit)))); reflexivity.
Qed.

Lemma GetCommits_hands_on_commits_witness :
  exists g',
    GetCommits (49 * Hour) (firstn 2 listed_commits, Some quota_left, None) detail_api
      fresh_client (168 * Hour) true
    = Done (g',
            (newRepositoryCommitSlice
               (map (with_detail detail_api (168 * Hour) true) (firstn 2 listed_commits)),
             [] ++ detail_errors detail_api (168 * Hour) true (firstn 2 listed_commits))) /\
    map CommitCreatedAt
        (newRepositoryCommitSlice
           (map (with_detail detail_api (168 * Hour) true) (firstn 2 listed_commits)))
    = map GhCommitterDate (firstn 2 listed_commits).
Proof.
  apply (GetCommits_hands_on_commits (49 * Hour) (firstn 2 listed_commits)
           quota_left None detail_api fresh_client (168 * Hour) true).
  repeat constructor; discriminate.
Defined.

Lemma counted_used g resp :
  minInt64 <= apiRateUsed g -> apiRateUsed g + 1 <= maxInt64 ->
  apiRateUsed (counted g resp) = apiRateUsed g + 1.
Proof.
  intros Hlo Hhi. unfold counted. cbn [apiRateUsed].
  apply wrap64_small. go_consts. lia.
Qed.

Lemma GetCommits_loop_calls now getCommit firstCommentTime includeFiles commits :
  forall g errs g' errs' commits',
    GetCommits_loop now getCommit firstCommentTime includeFiles g errs commits
      = Done (g', errs', commits') ->
    minInt64 <= apiRateUsed g ->
    apiRateUsed g
      + Z.of_nat (length (List.filter (detail_wanted firstCommentTime includeFiles)
                                      commits)) <= maxInt64 ->
    apiRateUsed g'
    = apiRateUsed g
      + Z.of_nat (length (List.filter (detail_wanted firstCommentTime includeFiles)
                                      commits)).
Proof.
  induction commits as [|commit rest IH]; intros g errs g' errs' commits'.
  - cbn. intros [= <- _ _] _ _. lia.
  - rewrite GetCommits_loop_step. cbn [List.filter].
    destruct (detail_wanted firstCommentTime includeFiles commit).
    + destruct (getCommit (GhSHA commit)) as [[detailed resp] err].
      destruct resp as [resp|]; [|discriminate].
      destruct detailed as [detailed|]; [|discriminate].
      destruct (GetCommits_loop _ _ _ _ _ _ rest) as [[[g1 errs1] rest1]|] eqn:E;
        cbn [exec_bind]; [|discriminate].
      intros [= <- _ _] Hlo Hhi. cbn [length] in *.
      assert (Hused : apiRateUsed (counted g resp) = apiRateUsed g + 1)
        by (apply counted_used; lia).
      rewrite (IH _ _ _ _ _ E) by (rewrite Hused; go_consts; lia).
      rewrite Hused. lia.
    + destruct (GetCommits_loop _ _ _ _ _ _ rest) as [[[g1 errs1] rest1]|] eqn:E;
        cbn [exec_bind]; [|discriminate].
      intros [= <- _ _] Hlo Hhi. apply (IH _ _ _ _ _ E Hlo Hhi).
Qed.

(** X18: a call of [GetCommits] that returns has counted one request for
    the listing and one more for each commit created after
    [firstCommentTime] when [includeFiles] is set, none more when it is
    not, as long as the counter does not overflow. *)
Theorem GetCommits_counts_requests (now : Time)
    (commits : list GhRepositoryCommit) (resp : option Response) (err : option error)
    (getCommit : string -> CommitAnswer) (g g' : GitHubClient)
    (firstCommentTime : Time) (includeFiles : bool)
    (result : list RepositoryCommit * list error) :
  GetCommits now (commits, resp, err) getCommit g firstCommentTime includeFiles
    = Done (g', result) ->
  minInt64 <= apiRateUsed g ->
  apiRateUsed g + 1 + Z.of_nat (length commits) <= maxInt64 ->
  apiRateUsed g'
  = apiRateUsed g + 1
    + (if includeFiles
       then Z.of_nat (length (List.filter
                                (fun c => After (GhCommitterDate c) firstCommentTime)
                                commits))
       else 0).
Proof.
  destruct resp as [resp|]; [|discriminate].
  rewrite GetCommits_answered.
  destruct (GetCommits_loop _ _ _ _ _ _ commits) as [[[g1 errs1] commits1]|] eqn:E;
    cbn [exec_bind]; [|discriminate].
  intros [= <- _] Hlo Hhi.
  assert (Hused : apiRateUsed (counted g resp) = apiRateUsed g + 1)
    by (apply counted_used; lia).
  assert (Hlen : (length (List.filter (detail_wanted firstCommentTime includeFiles)
                                      commits) <= length commits)%nat).
  { clear. induction commits as [|c cs IH]; cbn [List.filter length]; [lia|].
    destruct (detail_wanted _ _ c); cbn [length]; lia. }
  rewrite (GetCommits_loop_calls _ _ _ _ _ _ _ _ _ _ E)
    by (rewrite Hused; go_consts; lia).
  rewrite Hused. f_equal. unfold detail_wanted. destruct includeFiles.
  - f_equal. f_equal. apply filter_ext. intros c. apply andb_true_r.
  - replace (List.filter _ commits) with (@nil GhRepositoryCommit); [reflexivity|].
    clear. induction commits as [|c cs IH]; cbn [List.filter]; [reflexivity|].
    now rewrite andb_false_r.
Qed.

Lemma GetCommits_counts_requests_witness :
  apiRateUsed {| apiRateUsed := 3; apiRateRemaining := 4999 |}
  = apiRateUsed fresh_client + 1
    + (if true
       then Z.of_nat (length (List.filter
                                (fun c => After (GhCommitterDate c) (168 * Hour))
                                (firstn 2 listed_commits)))
       else 0).
Proof.
  refine (GetCommits_counts_requests (49 * Hour) (firstn 2 listed_commits)
            (Some quota_left) None detail_api fresh_client
            {| apiRateUsed := 3; apiRateRemaining := 4999 |} (168 * Hour) true
            _ _ _ _).
  - reflexivity.
  - vm_compute. discriminate.
  - vm_compute. discriminate.
Defined.



(** The third commit is later than the first comment and its detail request
    fails: the program stops. *)
Example GetCommits_failed_detail :
  GetCommits (49 * Hour) (listed_commits, Some quota_left, None) detail_api
    fresh_client (168 * Hour) true = Panic.
Proof. reflexivity. Qed.

End Commits.
